(** * SpotifyAuth: the authentication session manager of spotify-mcp

    A shallow embedding of [src/auth/spotify_auth.py].  The class
    [SpotifyAuth] keeps two instance fields, [_authenticated] and
    [_token_info], and sequences calls into three collaborators: spotipy's
    [SpotifyOAuth] client, the [TokenManager] (token persistence) and the
    [CacheManager].  Methods are embedded as computations in a state and
    exception monad over a [world] that holds the instance fields, the
    collaborators, the clock read by [time.time()] and a trace of the
    collaborator calls made so far.  Calls to the logger change neither
    the state nor a result and are left out. *)

From Stdlib Require Import ZArith String List Bool Lia.
From stdpp Require Import base gmap strings list fin_maps.

Local Open Scope string_scope.

(** ** Python values *)

(** The values that occur in a token dictionary.  spotipy builds the
    dictionary from the provider's JSON answer: strings, integers and
    [None]. *)
Inductive pyval : Type :=
| PyNone
| PyInt (z : Z)
| PyStr (s : string).

#[global] Instance pyval_eq_dec : EqDecision pyval.
Proof. solve_decision. Defined.

(** [token_info] is a Python [dict] with string keys. *)
Abbreviation dict := (gmap string pyval).

(** Exceptions.  Everything below derives from Python's [Exception], so
    each is caught by [except Exception]. *)
Inductive exn : Type :=
| KeyError (key : string)
| TypeError
| ValueError (msg : string)
| SpotifyOauthError (reason : string)
| OSError (reason : string).

Inductive result (A : Type) : Type :=
| Ok (a : A)
| Raise (e : exn).
Arguments Ok {A} a.
Arguments Raise {A} e.

Definition is_ok {A} (r : result A) : bool :=
  match r with Ok _ => true | Raise _ => false end.

(** Truthiness, as [if x:] and [x or y] see it. *)
Definition truthy_dict (o : option dict) : bool :=
  match o with
  | Some d => bool_decide (d ≠ ∅)
  | None => false
  end.

Definition truthy_str (o : option string) : bool :=
  match o with
  | Some s => bool_decide (s ≠ "")
  | None => false
  end.

Definition truthy_val (v : pyval) : bool :=
  match v with
  | PyNone => false
  | PyInt z => negb (z =? 0)%Z
  | PyStr s => bool_decide (s ≠ "")
  end.

Definition py_or_dict (a b : option dict) : option dict :=
  if truthy_dict a then a else b.

Definition py_or_str (a b : option string) : option string :=
  if truthy_str a then a else b.

(** [all(xs)] over values that are [None] or strings. *)
Definition py_all (xs : list (option string)) : bool := forallb truthy_str xs.

(** [os.getenv(key, default)] over the process environment. *)
Definition os_getenv (environ : gmap string string) (key : string)
    (default : option string) : option string :=
  match environ !! key with
  | Some v => Some v
  | None => default
  end.

(** ** Collaborators *)

(** spotipy's [SpotifyOAuth], as far as the class uses it.  The client
    talks to the remote provider, so every call may raise and may change
    the client's state. *)
Class OAuthClient (O : Type) : Type := {
  get_authorize_url : O -> result string * O;
  get_access_token : O -> string -> result dict * O;
  refresh_access_token : O -> pyval -> result dict * O
}.

(** Modelled from the spec: [TokenManager] ([auth/token_manager.py]) is
    not part of the sources at hand.  The spec gives it the interface
    [load() -> TokenRecord | absent], [save(TokenRecord) -> void],
    [delete() -> void] and lists persistence failure among the errors, so
    every call may raise. *)
Class TokenManager (S : Type) : Type := {
  load_token : S -> result (option dict) * S;
  save_token : S -> dict -> result unit * S;
  delete_token : S -> result unit * S
}.

(** What the spec expects of a store: a completed [delete] leaves nothing
    to load. *)
Class TokenManagerLaws (S : Type) `{TokenManager S} : Prop := {
  load_after_delete : forall s s',
    delete_token s = (Ok tt, s') -> fst (load_token s') = Ok None
}.

(** Modelled from the spec: [CacheManager] ([auth/cache_manager.py]) is
    not part of the sources at hand.  The spec gives it the interface
    [clear_all() -> void]; [cache_cleared] is the observation that no
    cached data is left. *)
Class CacheManager (C : Type) : Type := {
  clear_all_cache : C -> result unit * C;
  cache_cleared : C -> bool
}.

Class CacheManagerLaws (C : Type) `{CacheManager C} : Prop := {
  cleared_after_clear : forall c c',
    clear_all_cache c = (Ok tt, c') -> cache_cleared c' = true
}.

(** Calls made to the collaborators, in the order they are made. *)
Inductive event : Type :=
| EvAuthorizeUrl
| EvGetAccessToken (code : string)
| EvRefreshAccessToken (refresh : pyval)
| EvLoadToken
| EvSaveToken (token : dict)
| EvDeleteToken
| EvClearAllCache.

Definition is_save (e : event) : bool :=
  match e with EvSaveToken _ => true | _ => false end.

(** Number of [save_token] calls in a trace. *)
Definition saves (tr : list event) : nat := length (List.filter is_save tr).

Section Manager.

Context {O S C : Type}.
Context `{OAuthClient O, TokenManager S, CacheManager C}.

(** ** The world *)

Record world : Type := World {
  self_client_id : option string;
  self_client_secret : option string;
  self_redirect_uri : option string;
  self_token_manager : S;
  self_cache_manager : C;
  self_oauth : O;
  _authenticated : bool;
  _token_info : option dict;
  clock : Z;
  trace : list event
}.

Definition with_authenticated (b : bool) (w : world) : world :=
  World (self_client_id w) (self_client_secret w) (self_redirect_uri w)
        (self_token_manager w) (self_cache_manager w) (self_oauth w)
        b (_token_info w) (clock w) (trace w).

Definition with_token_info (t : option dict) (w : world) : world :=
  World (self_client_id w) (self_client_secret w) (self_redirect_uri w)
        (self_token_manager w) (self_cache_manager w) (self_oauth w)
        (_authenticated w) t (clock w) (trace w).

Definition with_token_manager (s : S) (w : world) : world :=
  World (self_client_id w) (self_client_secret w) (self_redirect_uri w)
        s (self_cache_manager w) (self_oauth w)
        (_authenticated w) (_token_info w) (clock w) (trace w).

Definition with_cache_manager (c : C) (w : world) : world :=
  World (self_client_id w) (self_client_secret w) (self_redirect_uri w)
        (self_token_manager w) c (self_oauth w)
        (_authenticated w) (_token_info w) (clock w) (trace w).

Definition with_oauth (o : O) (w : world) : world :=
  World (self_client_id w) (self_client_secret w) (self_redirect_uri w)
        (self_token_manager w) (self_cache_manager w) o
        (_authenticated w) (_token_info w) (clock w) (trace w).

Definition with_clock (t : Z) (w : world) : world :=
  World (self_client_id w) (self_client_secret w) (self_redirect_uri w)
        (self_token_manager w) (self_cache_manager w) (self_oauth w)
        (_authenticated w) (_token_info w) t (trace w).

Definition log (e : event) (w : world) : world :=
  World (self_client_id w) (self_client_secret w) (self_redirect_uri w)
        (self_token_manager w) (self_cache_manager w) (self_oauth w)
        (_authenticated w) (_token_info w) (clock w) (trace w ++ [e]).

(** ** The monad: state that survives a raised exception *)

Definition M (A : Type) : Type := world -> result A * world.

Definition ret {A} (a : A) : M A := fun w => (Ok a, w).

Definition raise {A} (e : exn) : M A := fun w => (Raise e, w).

Definition bind {A B} (m : M A) (k : A -> M B) : M B :=
  fun w =>
    match m w with
    | (Ok a, w') => k a w'
    | (Raise e, w') => (Raise e, w')
    end.

(** [try: body except Exception as e: handler]. *)
Definition try_except {A} (body : M A) (handler : exn -> M A) : M A :=
  fun w =>
    match body w with
    | (Ok a, w') => (Ok a, w')
    | (Raise e, w') => handler e w'
    end.

#[global] Instance M_ret : MRet M := @ret.
#[global] Instance M_bind : MBind M := fun A B k m => bind m k.

Definition read {A} (f : world -> A) : M A := fun w => (Ok (f w), w).

Definition assign (f : world -> world) : M unit := fun w => (Ok tt, f w).

Definition call_oauth {A} (e : event) (f : O -> result A * O) : M A :=
  fun w => let (r, o) := f (self_oauth w) in (r, with_oauth o (log e w)).

Definition call_token_manager {A} (e : event) (f : S -> result A * S) : M A :=
  fun w =>
    let (r, s) := f (self_token_manager w) in (r, with_token_manager s (log e w)).

Definition call_cache_manager {A} (e : event) (f : C -> result A * C) : M A :=
  fun w =>
    let (r, c) := f (self_cache_manager w) in (r, with_cache_manager c (log e w)).

End Manager.

Arguments world : clear implicits.
Arguments M : clear implicits.

(** ** The methods of [SpotifyAuth] *)

Section Methods.

Context {O S C : Type}.
Context `{OAuthClient O, TokenManager S, CacheManager C}.

Local Abbreviation M' := (M O S C).

(** [key in d]; [None] is not a container. *)
Definition contains (d : option dict) (key : string) : M' bool :=
  match d with
  | Some d => ret (bool_decide (is_Some (d !! key)))
  | None => raise TypeError
  end.

(** [d[key]]; [None] is not subscriptable. *)
Definition subscript (d : option dict) (key : string) : M' pyval :=
  match d with
  | Some d =>
      match d !! key with
      | Some v => ret v
      | None => raise (KeyError key)
      end
  | None => raise TypeError
  end.

(** [a - b] with [b] an [int]. *)
Definition py_sub (a : pyval) (b : Z) : M' Z :=
  match a with
  | PyInt z => ret (z - b)%Z
  | _ => raise TypeError
  end.

(** [int(time.time())] *)
Definition time_time : M' Z := read clock.

(** [x is not None] *)
Definition is_not_none (d : option dict) : bool :=
  match d with Some _ => true | None => false end.

(** Lines 111-121. *)
Definition _is_token_expired (token_info : option dict) : M' bool :=
  now ← time_time;
  expires_at ← subscript token_info "expires_at";
  remaining ← py_sub expires_at now;
  ret (remaining <? 60)%Z.

(** Lines 123-131. *)
Definition get_auth_url : M' string :=
  auth_url ← call_oauth EvAuthorizeUrl get_authorize_url;
  ret auth_url.

(** Lines 133-159. *)
Definition handle_callback (code : string) : M' bool :=
  try_except
    (token_info ← call_oauth (EvGetAccessToken code)
                     (fun o => get_access_token o code);
     call_token_manager (EvSaveToken token_info)
       (fun s => save_token s token_info) ;;
     assign (with_token_info (Some token_info)) ;;
     assign (with_authenticated true) ;;
     ret true)
    (fun e =>
     assign (with_authenticated false) ;;
     assign (with_token_info None) ;;
     ret false).

(** Lines 161-197.  [token_info = None] is the call without argument. *)
Definition refresh_token (token_info : option dict) : M' (option dict) :=
  held ← read _token_info;
  let token_to_refresh := py_or_dict token_info held in
  no_refresh ← (if negb (truthy_dict token_to_refresh) then ret true
                 else b ← contains token_to_refresh "refresh_token";
                      ret (negb b));
  if (no_refresh : bool) then
    assign (with_authenticated false) ;;
    assign (with_token_info None) ;;
    ret None
  else
    try_except
      (refresh_token ← subscript token_to_refresh "refresh_token";
       new_token ← call_oauth (EvRefreshAccessToken refresh_token)
                      (fun o => refresh_access_token o refresh_token);
       call_token_manager (EvSaveToken new_token)
         (fun s => save_token s new_token) ;;
       assign (with_token_info (Some new_token)) ;;
       assign (with_authenticated true) ;;
       ret (Some new_token))
      (fun e =>
       assign (with_authenticated false) ;;
       assign (with_token_info None) ;;
       ret None).

(** Lines 89-109. *)
Definition _load_saved_token : M' unit :=
  token_info ← call_token_manager EvLoadToken load_token;
  if truthy_dict token_info then
    expired ← _is_token_expired token_info;
    token_info ← (if (expired : bool) then
                     try_except (refresh_token token_info) (fun e => ret None)
                   else ret token_info);
    if truthy_dict token_info then
      assign (with_token_info token_info) ;;
      assign (with_authenticated true)
    else ret tt
  else ret tt.

(** Lines 199-221.  The [try] block either returns from the method
    ([Some v]) or falls through to the last line ([None]), which is
    outside the [try]. *)
Definition get_token : M' pyval :=
  authenticated ← read _authenticated;
  token_info ← read _token_info;
  if negb authenticated || negb (truthy_dict token_info) then ret PyNone
  else
    expired ← _is_token_expired token_info;
    returned ← (if (expired : bool) then
                   try_except
                     (new_token ← refresh_token None;
                      assign (with_token_info new_token) ;;
                      if negb (truthy_dict new_token) then ret (Some PyNone)
                      else ret None)
                     (fun e => ret (Some PyNone))
                 else ret None);
    match returned with
    | Some v => ret v
    | None =>
        token_info ← read _token_info;
        subscript token_info "access_token"
    end.

(** [spotipy.Spotify(auth=token)]: an API client bound to a token. *)
Record Spotify : Type := { auth : pyval }.

(** Lines 223-234. *)
Definition get_spotify_client : M' (option Spotify) :=
  token ← get_token;
  if negb (truthy_val token) then ret None
  else ret (Some {| auth := token |}).

(** Lines 236-257. *)
Definition is_authenticated : M' bool :=
  authenticated ← read _authenticated;
  token_info ← read _token_info;
  if authenticated && truthy_dict token_info then
    expired ← _is_token_expired token_info;
    if negb expired then ret true
    else
      try_except
        (new_token ← refresh_token None;
         assign (with_token_info new_token) ;;
         ret (is_not_none new_token))
        (fun e =>
         assign (with_authenticated false) ;;
         ret false)
  else ret false.

(** Lines 259-276. *)
Definition disconnect : M' bool :=
  try_except
    (call_token_manager EvDeleteToken delete_token ;;
     call_cache_manager EvClearAllCache clear_all_cache ;;
     assign (with_authenticated false) ;;
     assign (with_token_info None) ;;
     ret true)
    (fun e => ret false).

(** Lines 278-287. *)
Definition clear_cache : M' bool :=
  try_except
    (call_cache_manager EvClearAllCache clear_all_cache ;;
     ret true)
    (fun e => ret false).

(** The list [missing] of [__init__], lines 59-65. *)
Definition missing_fields (client_id client_secret redirect_uri : option string)
    : list string :=
  (if negb (truthy_str client_id) then ["SPOTIFY_CLIENT_ID"] else []) ++
  (if negb (truthy_str client_secret) then ["SPOTIFY_CLIENT_SECRET"] else []) ++
  (if negb (truthy_str redirect_uri) then ["SPOTIFY_REDIRECT_URI"] else []).

(** The message of line 66. *)
Definition credentials_message (missing : list string) : string :=
  "認証情報が不足しています: " ++ String.concat ", " missing.


Definition default_redirect_uri : string := "http://127.0.0.1:8000/callback".

(** Lines 42-87.  [token_manager], [cache_manager] and [oauth] are the
    collaborators as lines 69-80 construct them; [now] is the clock at
    construction.  A raised exception leaves no instance behind. *)
Definition __init__ (environ : gmap string string)
    (client_id client_secret redirect_uri : option string)
    (token_manager : S) (cache_manager : C) (oauth : O) (now : Z)
    : result (world O S C) :=
  let client_id := py_or_str client_id (os_getenv environ "SPOTIFY_CLIENT_ID" None) in
  let client_secret :=
    py_or_str client_secret (os_getenv environ "SPOTIFY_CLIENT_SECRET" None) in
  let redirect_uri :=
    py_or_str redirect_uri
      (os_getenv environ "SPOTIFY_REDIRECT_URI" (Some default_redirect_uri)) in
  if negb (py_all [client_id; client_secret; redirect_uri]) then
    let missing := missing_fields client_id client_secret redirect_uri in
    Raise (ValueError (credentials_message missing))
  else
    let self := World client_id client_secret redirect_uri
                  token_manager cache_manager oauth false None now [] in
    match _load_saved_token self with
    | (Ok _, self) => Ok self
    | (Raise e, _) => Raise e
    end.

End Methods.

(** ** Scripted collaborators

    Small executable collaborators, used to run the methods on concrete
    inputs. *)

(** A provider that knows which authorization codes and which refresh
    tokens it honours, and what it answers to each. *)
Record provider : Type := Provider {
  grants : list (string * dict);
  renewals : list (string * dict)
}.

Fixpoint assoc {A} (key : string) (l : list (string * A)) : option A :=
  match l with
  | [] => None
  | (k, v) :: l' => if String.eqb k key then Some v else assoc key l'
  end.

#[global] Instance provider_oauth : OAuthClient provider := {
  get_authorize_url p := (Ok "https://accounts.spotify.com/authorize", p);
  get_access_token p code :=
    match assoc code (grants p) with
    | Some t => (Ok t, p)
    | None => (Raise (SpotifyOauthError "invalid_grant"), p)
    end;
  refresh_access_token p refresh :=
    match refresh with
    | PyStr r =>
        match assoc r (renewals p) with
        | Some t => (Ok t, p)
        | None => (Raise (SpotifyOauthError "invalid_grant"), p)
        end
    | _ => (Raise (SpotifyOauthError "invalid_request"), p)
    end
}.

(** A token file that can be read always and written only when the
    directory allows it. *)
Record token_file : Type := TokenFile {
  stored : option dict;
  writable : bool
}.

#[global] Instance token_file_manager : TokenManager token_file := {
  load_token f := (Ok (stored f), f);
  save_token f t :=
    if writable f then (Ok tt, TokenFile (Some t) true)
    else (Raise (OSError "read-only"), f);
  delete_token f :=
    if writable f then (Ok tt, TokenFile None true)
    else (Raise (OSError "read-only"), f)
}.

(** A cache directory listed by its entries. *)
Record cache_dir : Type := CacheDir {
  entries : list string;
  cache_writable : bool
}.

#[global] Instance cache_dir_manager : CacheManager cache_dir := {
  clear_all_cache c :=
    if cache_writable c then (Ok tt, CacheDir [] true)
    else (Raise (OSError "read-only"), c);
  cache_cleared c := match entries c with [] => true | _ => false end
}.

(** Sample records. *)
Definition token_record (access refresh : string) (expires_at : Z) : dict :=
  <["access_token" := PyStr access]>
    (<["refresh_token" := PyStr refresh]>
       (<["expires_at" := PyInt expires_at]> ∅)).

Definition token_without_refresh (access : string) (expires_at : Z) : dict :=
  <["access_token" := PyStr access]> (<["expires_at" := PyInt expires_at]> ∅).

Definition sample_provider : provider :=
  Provider [("code1", token_record "A1" "R1" 4600)]
           [("R0", token_record "A2" "R2" 8200)].

Definition sample_world (held : option dict) (file : token_file)
    (cache : cache_dir) (now : Z) : world provider token_file cache_dir :=
  World (Some "id") (Some "secret") (Some default_redirect_uri)
        file cache sample_provider (is_not_none held) held now [].

(** The record held in the sample worlds; it expires at 1000. *)
Definition held_record : dict := token_record "A0" "R0" 1000.

(** A manager that holds [held_record] at time 1000, so the record is
    stale; the provider renews ["R0"]. *)
Definition stale_world (file_writable : bool)
    : world provider token_file cache_dir :=
  sample_world (Some held_record) (TokenFile (Some held_record) file_writable)
    (CacheDir ["top_tracks.json"] true) 1000.

(** The same, with a refresh token the provider does not know. *)
Definition revoked_world : world provider token_file cache_dir :=
  sample_world (Some (token_record "A0" "R9" 1000))
    (TokenFile (Some (token_record "A0" "R9" 1000)) true)
    (CacheDir ["top_tracks.json"] true) 1000.

(** A manager that holds nothing, before the callback. *)
Definition fresh_world (file_writable : bool)
    : world provider token_file cache_dir :=
  sample_world None (TokenFile None file_writable) (CacheDir [] true) 1000.

(** The manager that construction returns for explicit id and secret,
    no redirect URI, an empty environment and an empty token file. *)
Definition constructed_world : world provider token_file cache_dir :=
  World (Some "id") (Some "secret") (Some default_redirect_uri)
        (TokenFile None true) (CacheDir [] true) sample_provider
        false None 1000 [EvLoadToken].

(** A manager that holds [held_record] at time 0, when it is valid; the
    cache directory cannot be written iff [cache_ok] is off. *)
Definition valid_world (cache_ok : bool)
    : world provider token_file cache_dir :=
  sample_world (Some held_record) (TokenFile (Some held_record) true)
    (CacheDir ["top_tracks.json"] cache_ok) 0.

(** A manager that holds the record [d] at time 0. *)
Definition holding_world (d : dict) : world provider token_file cache_dir :=
  sample_world (Some d) (TokenFile (Some d) true) (CacheDir [] true) 0.

(** * Properties *)

(** Unfolds the monad down to matches on the collaborators' answers. *)
Ltac unfold_monad :=
  unfold mbind, M_bind, bind, try_except, ret, raise, read, assign,
    call_oauth, call_token_manager, call_cache_manager in *.

Ltac step_world := unfold_monad; cbn [fst snd] in *.

(** Reads a field of a world built by the setters. *)
Ltac read_world :=
  cbn [self_client_id self_client_secret self_redirect_uri self_token_manager
       self_cache_manager self_oauth _authenticated _token_info clock trace
       with_authenticated with_token_info with_token_manager
       with_cache_manager with_oauth with_clock log] in *.

Section Properties.

Context {O S C : Type}.
Context `{OAuthClient O, TokenManager S, CacheManager C}.

Local Abbreviation W := (world O S C).

(** The state after a failed authentication step: lines 157-158, 175-176
    and 195-196. *)
Definition unauthenticated (w : W) : W :=
  with_token_info None (with_authenticated false w).

(** The state after a completed authentication step: lines 150-151 and
    188-189. *)
Definition authenticated_with (t : dict) (w : W) : W :=
  with_authenticated true (with_token_info (Some t) w).

(** The record that [refresh_token] is asked to refresh, in the words of
    the specification: the explicit argument, or the held record when no
    argument is given. *)
Definition record_to_refresh (arg held : option dict) : option dict :=
  match arg with
  | Some d => Some d
  | None => held
  end.

(** The refresh that [refresh_token()] attempts for the held record [d]
    goes through: [d] has a refresh token, the provider exchanges it, and
    the token store completes the save of the answer. *)
Definition refresh_succeeds (w : W) (d : dict) : Prop :=
  exists (rt : pyval) (new_token : dict) (o : O) (s : S),
    d !! "refresh_token" = Some rt /\
    refresh_access_token (self_oauth w) rt = (Ok new_token, o) /\
    save_token (self_token_manager w) new_token = (Ok tt, s).

(** The invariant of the in-memory state: the flag is set exactly when a
    record is held ([_token_info is not None]). *)
Definition flag_matches_token (w : W) : Prop :=
  _authenticated w = is_not_none (_token_info w).

(** The public operations of a constructed manager, and the world each
    leaves behind, whether it returns or raises. *)
Inductive operation : Type :=
| GetAuthUrl
| HandleCallback (code : string)
| RefreshToken (token_info : option dict)
| GetToken
| GetSpotifyClient
| IsAuthenticated
| Disconnect
| ClearCache.

Definition after (op : operation) (w : W) : W :=
  match op with
  | GetAuthUrl => snd (get_auth_url w)
  | HandleCallback code => snd (handle_callback code w)
  | RefreshToken token_info => snd (refresh_token token_info w)
  | GetToken => snd (get_token w)
  | GetSpotifyClient => snd (get_spotify_client w)
  | IsAuthenticated => snd (is_authenticated w)
  | Disconnect => snd (disconnect w)
  | ClearCache => snd (clear_cache w)
  end.

(** The worlds a manager can be in: freshly constructed, after a public
    operation, or after time has passed. *)
Inductive reachable : W -> Prop :=
| reach_init environ client_id client_secret redirect_uri tm cm oa now w :
    __init__ environ client_id client_secret redirect_uri tm cm oa now = Ok w ->
    reachable w
| reach_call op w : reachable w -> reachable (after op w)
| reach_tick now w : reachable w -> reachable (with_clock now w).

(** The collaborator calls one public operation can make, in order. *)
Inductive call_shape : list event -> Prop :=
| shape_none : call_shape []
| shape_authorize_url : call_shape [EvAuthorizeUrl]
| shape_exchange code : call_shape [EvGetAccessToken code]
| shape_exchange_save code t :
    call_shape [EvGetAccessToken code; EvSaveToken t]
| shape_refresh rt : call_shape [EvRefreshAccessToken rt]
| shape_refresh_save rt t :
    call_shape [EvRefreshAccessToken rt; EvSaveToken t]
| shape_delete : call_shape [EvDeleteToken]
| shape_delete_clear : call_shape [EvDeleteToken; EvClearAllCache]
| shape_clear : call_shape [EvClearAllCache].

(** The client identity and the clock are the same in both worlds. *)
Definition same_identity (w w' : W) : Prop :=
  self_client_id w' = self_client_id w /\
  self_client_secret w' = self_client_secret w /\
  self_redirect_uri w' = self_redirect_uri w /\
  clock w' = clock w.

(** The flag and the held record are the same in both worlds. *)
Definition same_session (w w' : W) : Prop :=
  _authenticated w' = _authenticated w /\ _token_info w' = _token_info w.

(** What an operation leaves alone besides the identity. *)
Definition untouched (op : operation) (w w' : W) : Prop :=
  match op with
  | GetAuthUrl =>
      same_session w w' /\
      self_token_manager w' = self_token_manager w /\
      self_cache_manager w' = self_cache_manager w
  | ClearCache =>
      same_session w w' /\
      self_token_manager w' = self_token_manager w /\
      self_oauth w' = self_oauth w
  | Disconnect => self_oauth w' = self_oauth w
  | _ => self_cache_manager w' = self_cache_manager w
  end.

(** Lines 53-58: the credentials check of [__init__] passes. *)
Definition credentials_given (environ : gmap string string)
    (client_id client_secret redirect_uri : option string) : bool :=
  py_all
    [py_or_str client_id (os_getenv environ "SPOTIFY_CLIENT_ID" None);
     py_or_str client_secret (os_getenv environ "SPOTIFY_CLIENT_SECRET" None);
     py_or_str redirect_uri
       (os_getenv environ "SPOTIFY_REDIRECT_URI" (Some default_redirect_uri))].

(** Lines 53-84: the instance on which [__init__] calls
    [_load_saved_token]. *)
Definition initial_world (environ : gmap string string)
    (client_id client_secret redirect_uri : option string)
    (tm : S) (cm : C) (oa : O) (now : Z) : W :=
  World (py_or_str client_id (os_getenv environ "SPOTIFY_CLIENT_ID" None))
        (py_or_str client_secret (os_getenv environ "SPOTIFY_CLIENT_SECRET" None))
        (py_or_str redirect_uri
           (os_getenv environ "SPOTIFY_REDIRECT_URI" (Some default_redirect_uri)))
        tm cm oa false None now [].

(** ** Dictionaries and truthiness *)

Lemma lookup_nonempty (d : dict) (k : string) (v : pyval) :
  d !! k = Some v -> d ≠ ∅.
Proof. intros E ->. rewrite lookup_empty in E. discriminate. Qed.

Lemma truthy_dict_Some (d : dict) : d ≠ ∅ -> truthy_dict (Some d) = true.
Proof. intros Hd. unfold truthy_dict. apply bool_decide_eq_true_2, Hd. Qed.

Lemma truthy_dict_true (o : option dict) :
  truthy_dict o = true -> exists d, o = Some d /\ d ≠ ∅.
Proof.
  destruct o as [d|]; cbn; [|discriminate].
  intros E. apply bool_decide_eq_true_1 in E. eauto.
Qed.

Lemma truthy_dict_false (o : option dict) :
  truthy_dict o = false -> o = None \/ o = Some ∅.
Proof.
  destruct o as [d|]; cbn; [|auto].
  intros E. apply bool_decide_eq_false_1 in E. right. f_equal.
  destruct (decide (d = ∅)); [assumption | contradiction].
Qed.

Lemma py_or_dict_given (d : dict) (held : option dict) :
  d ≠ ∅ -> py_or_dict (Some d) held = Some d.
Proof. intros Hd. unfold py_or_dict. now rewrite truthy_dict_Some. Qed.

Lemma py_or_dict_default (held : option dict) : py_or_dict None held = held.
Proof. reflexivity. Qed.

(** ** [_is_token_expired] *)

Lemma is_token_expired_eq (t : dict) (e : Z) (w : W) :
  t !! "expires_at" = Some (PyInt e) ->
  _is_token_expired (Some t) w = (Ok (e - clock w <? 60)%Z, w).
Proof.
  intros E. unfold _is_token_expired, time_time, subscript, py_sub.
  step_world. rewrite E. reflexivity.
Qed.

(** ** [refresh_token]: the three ways through the method *)

(** Lines 173-177: nothing to refresh with. *)
Lemma refresh_token_fail_fast (arg : option dict) (w : W) :
  match py_or_dict arg (_token_info w) with
  | Some d => d = ∅ \/ d !! "refresh_token" = None
  | None => True
  end ->
  refresh_token arg w = (Ok None, unauthenticated w).
Proof.
  intros Hno. unfold refresh_token, contains, subscript. step_world.
  destruct (py_or_dict arg (_token_info w)) as [d|] eqn:E; cbn.
  - cbn beta iota in Hno. destruct (bool_decide (d ≠ ∅)) eqn:T; cbn.
    + destruct Hno as [-> | Hno].
      * apply bool_decide_eq_true_1 in T. contradiction.
      * rewrite Hno. reflexivity.
    + reflexivity.
  - reflexivity.
Qed.

(** Lines 179-197: the exchange, then the save. *)
Lemma refresh_token_exchange (arg : option dict) (w : W) (d : dict) (rt : pyval) :
  py_or_dict arg (_token_info w) = Some d ->
  d !! "refresh_token" = Some rt ->
  refresh_token arg w =
    match refresh_access_token (self_oauth w) rt with
    | (Raise e, o) =>
        (Ok None, unauthenticated (with_oauth o (log (EvRefreshAccessToken rt) w)))
    | (Ok new_token, o) =>
        let w1 := with_oauth o (log (EvRefreshAccessToken rt) w) in
        match save_token (self_token_manager w) new_token with
        | (Ok _, s) =>
            (Ok (Some new_token),
             authenticated_with new_token
               (with_token_manager s (log (EvSaveToken new_token) w1)))
        | (Raise e, s) =>
            (Ok None,
             unauthenticated (with_token_manager s (log (EvSaveToken new_token) w1)))
        end
    end.
Proof.
  intros E Hrt. unfold refresh_token, contains, subscript. step_world.
  rewrite E. rewrite (truthy_dict_Some d (lookup_nonempty _ _ _ Hrt)). cbn.
  rewrite Hrt. cbn.
  destruct (refresh_access_token (self_oauth w) rt) as [[new_token|e] o]; cbn.
  - destruct (save_token (self_token_manager w) new_token) as [[[]|e] s]; reflexivity.
  - reflexivity.
Qed.

(** Every call of [refresh_token] ends in one of these two ways; none
    raises. *)
Lemma refresh_token_outcome (arg : option dict) (w : W) :
  (exists w', refresh_token arg w = (Ok None, unauthenticated w')) \/
  (exists new_token w',
     refresh_token arg w = (Ok (Some new_token), authenticated_with new_token w')).
Proof.
  destruct (py_or_dict arg (_token_info w)) as [d|] eqn:E.
  - destruct (d !! "refresh_token") as [rt|] eqn:Hrt.
    + rewrite (refresh_token_exchange arg w d rt E Hrt).
      destruct (refresh_access_token (self_oauth w) rt) as [[new_token|e] o].
      * cbn zeta.
        destruct (save_token (self_token_manager w) new_token) as [[[]|e] s];
          eauto.
      * eauto.
    + left. exists w. apply refresh_token_fail_fast. rewrite E. auto.
  - left. exists w. apply refresh_token_fail_fast. now rewrite E.
Qed.

Lemma refresh_token_never_raises (arg : option dict) (w : W) :
  exists r w', refresh_token arg w = (Ok r, w').
Proof.
  destruct (refresh_token_outcome arg w) as [[w' E] | [t [w' E]]];
    rewrite E; eauto.
Qed.

Lemma saves_app (tr1 tr2 : list event) : saves (tr1 ++ tr2) = saves tr1 + saves tr2.
Proof. unfold saves. now rewrite List.filter_app, List.length_app. Qed.

(** ** The claims about single methods *)

(** C5.  For every token record [t] and every reading [clock w] of the
    clock, [_is_token_expired] answers, and answers [True] exactly when
    [t["expires_at"] - now < 60]; it changes nothing. *)
Theorem is_token_expired_iff (t : dict) (e : Z) (w : W) :
  t !! "expires_at" = Some (PyInt e) ->
  exists stale : bool,
    _is_token_expired (Some t) w = (Ok stale, w) /\
    (stale = true <-> (e - clock w < 60)%Z).
Proof.
  intros E. exists (e - clock w <? 60)%Z. split.
  - now apply is_token_expired_eq.
  - apply Z.ltb_lt.
Qed.

(** C2.  Whatever record is refreshed (the argument or the held one) and
    whatever exception the provider's refresh exchange raises,
    [refresh_token] returns [None] instead of raising and leaves the
    manager unauthenticated with no held record. *)
Theorem refresh_token_swallows_exchange_error
    (arg : option dict) (w : W) (d : dict) (rt : pyval) (e : exn) (o : O) :
  py_or_dict arg (_token_info w) = Some d ->
  d !! "refresh_token" = Some rt ->
  refresh_access_token (self_oauth w) rt = (Raise e, o) ->
  exists w',
    refresh_token arg w = (Ok None, w') /\
    _authenticated w' = false /\
    _token_info w' = None.
Proof.
  intros E Hrt Hraise.
  rewrite (refresh_token_exchange arg w d rt E Hrt), Hraise.
  eexists. split; [reflexivity|]. split; reflexivity.
Qed.

(** C7, amended.  The record to refresh is chosen by line 171,
    [token_info or self._token_info]: the argument when it is a non-empty
    record, otherwise the held record.  When that record is absent or has
    no ["refresh_token"] key, [refresh_token] returns [None], leaves the
    manager unauthenticated with no held record, and calls no
    collaborator: the trace and the token store are as before. *)
Theorem refresh_token_without_refresh_token (arg : option dict) (w : W) :
  match py_or_dict arg (_token_info w) with
  | Some d => d !! "refresh_token" = None
  | None => True
  end ->
  exists w',
    refresh_token arg w = (Ok None, w') /\
    _authenticated w' = false /\
    _token_info w' = None /\
    trace w' = trace w /\
    saves (trace w') = saves (trace w) /\
    self_token_manager w' = self_token_manager w.
Proof.
  intros Hno. exists (unauthenticated w). split.
  - apply refresh_token_fail_fast.
    destruct (py_or_dict arg (_token_info w)); auto.
  - repeat split; reflexivity.
Qed.

(** C3.  When the provider rejects the code (the exchange raises),
    [handle_callback] returns [False]; the only collaborator call it made
    is the exchange, so [save_token] was not called and the token store
    is as before; and [is_authenticated], called afterwards at any time,
    returns [False]. *)
Theorem handle_callback_rejected (code : string) (w : W) (e : exn) (o : O) :
  get_access_token (self_oauth w) code = (Raise e, o) ->
  exists w',
    handle_callback code w = (Ok false, w') /\
    trace w' = (trace w ++ [EvGetAccessToken code])%list /\
    saves (trace w') = saves (trace w) /\
    self_token_manager w' = self_token_manager w /\
    forall now, is_authenticated (with_clock now w') = (Ok false, with_clock now w').
Proof.
  intros Hraise.
  exists (unauthenticated (with_oauth o (log (EvGetAccessToken code) w))).
  split; [|split; [|split; [|split]]].
  - unfold handle_callback. step_world. rewrite Hraise. reflexivity.
  - reflexivity.
  - unfold unauthenticated. read_world. rewrite saves_app. cbn. lia.
  - reflexivity.
  - intros now. reflexivity.
Qed.

(** C4, amended.  When the provider accepts the code and the token
    store completes the save, [handle_callback] returns [True], the
    manager holds the record the provider returned and is flagged
    authenticated, the one record handed to [save_token] is that record,
    and [is_authenticated], called afterwards while the record is still
    valid, returns [True]. *)
Theorem handle_callback_accepted (code : string) (w : W) (t : dict) (o : O) (s : S) :
  get_access_token (self_oauth w) code = (Ok t, o) ->
  save_token (self_token_manager w) t = (Ok tt, s) ->
  exists w',
    handle_callback code w = (Ok true, w') /\
    _authenticated w' = true /\
    _token_info w' = Some t /\
    trace w' = (trace w ++ [EvGetAccessToken code; EvSaveToken t])%list /\
    self_token_manager w' = s /\
    forall now e,
      t !! "expires_at" = Some (PyInt e) -> (60 <= e - now)%Z ->
      is_authenticated (with_clock now w') = (Ok true, with_clock now w').
Proof.
  intros Hok Hsave.
  exists (authenticated_with t
            (with_token_manager s (log (EvSaveToken t)
               (with_oauth o (log (EvGetAccessToken code) w))))).
  split; [|split; [|split; [|split; [|split]]]].
  - unfold handle_callback. step_world. rewrite Hok. read_world.
    rewrite Hsave. reflexivity.
  - reflexivity.
  - reflexivity.
  - unfold authenticated_with. read_world. now rewrite <- app_assoc.
  - reflexivity.
  - intros now e He Hvalid. unfold is_authenticated, authenticated_with.
    step_world. read_world.
    rewrite (truthy_dict_Some t (lookup_nonempty _ _ _ He)). cbn [andb].
    rewrite (is_token_expired_eq t e _ He). read_world.
    replace (e - now <? 60)%Z with false by (symmetry; apply Z.ltb_ge; lia).
    reflexivity.
Qed.

(** What [handle_callback] does when the save raises: lines 155-159. *)
Lemma handle_callback_save_raises (code : string) (w : W) (t : dict) (o : O)
    (e : exn) (s : S) :
  get_access_token (self_oauth w) code = (Ok t, o) ->
  save_token (self_token_manager w) t = (Raise e, s) ->
  handle_callback code w =
    (Ok false,
     unauthenticated (with_token_manager s (log (EvSaveToken t)
        (with_oauth o (log (EvGetAccessToken code) w))))).
Proof.
  intros Hok Hsave. unfold handle_callback. step_world. rewrite Hok.
  read_world. rewrite Hsave. reflexivity.
Qed.

(** C1, amended.  When the manager holds a stale record whose refresh
    token the provider accepts, and the token store completes the save,
    [get_token] returns the access token of the refreshed record, the
    manager holds the refreshed record, and [save_token] was called
    exactly once, with the refreshed record. *)
Theorem get_token_refreshes_stale (w : W) (d : dict) (e : Z) (rt : pyval)
    (new_token : dict) (o : O) (s : S) (access : pyval) :
  _authenticated w = true ->
  _token_info w = Some d ->
  d !! "expires_at" = Some (PyInt e) ->
  (e - clock w < 60)%Z ->
  d !! "refresh_token" = Some rt ->
  refresh_access_token (self_oauth w) rt = (Ok new_token, o) ->
  save_token (self_token_manager w) new_token = (Ok tt, s) ->
  new_token !! "access_token" = Some access ->
  exists w',
    get_token w = (Ok access, w') /\
    _authenticated w' = true /\
    _token_info w' = Some new_token /\
    trace w' =
      (trace w ++ [EvRefreshAccessToken rt; EvSaveToken new_token])%list /\
    saves (trace w') = Datatypes.S (saves (trace w)) /\
    self_token_manager w' = s.
Proof.
  intros Hauth Hheld He Hstale Hrt Hok Hsave Hacc.
  assert (Hrefresh := refresh_token_exchange None w d rt).
  rewrite py_or_dict_default, Hok in Hrefresh. cbn zeta in Hrefresh.
  rewrite Hsave in Hrefresh. specialize (Hrefresh Hheld Hrt).
  eexists. split; [|split; [|split; [|split; [|split]]]].
  - unfold get_token. step_world. rewrite Hauth, Hheld.
    rewrite (truthy_dict_Some d (lookup_nonempty _ _ _ He)). cbn [negb orb].
    rewrite (is_token_expired_eq d e w He).
    replace (e - clock w <? 60)%Z with true by (symmetry; apply Z.ltb_lt; lia).
    rewrite Hrefresh.
    rewrite (truthy_dict_Some new_token (lookup_nonempty _ _ _ Hacc)).
    cbn [negb]. unfold subscript, authenticated_with. step_world. read_world.
    rewrite Hacc. reflexivity.
  - reflexivity.
  - reflexivity.
  - unfold authenticated_with. read_world. now rewrite <- app_assoc.
  - unfold authenticated_with. read_world. rewrite !saves_app. cbn. lia.
  - reflexivity.
Qed.

(** ** [is_authenticated] *)

Lemma refresh_token_held_returns (w : W) (d : dict) :
  _token_info w = Some d ->
  (exists t w', refresh_token None w = (Ok (Some t), w')) <-> refresh_succeeds w d.
Proof.
  intros Hheld. split.
  - intros (t & w' & E).
    destruct (d !! "refresh_token") as [rt|] eqn:Hrt.
    + rewrite (refresh_token_exchange None w d rt Hheld Hrt) in E.
      destruct (refresh_access_token (self_oauth w) rt) as [[new_token|e] o] eqn:Hx;
        [|discriminate].
      cbn zeta in E.
      destruct (save_token (self_token_manager w) new_token) as [[[]|e] s] eqn:Hs;
        [|discriminate].
      exists rt, new_token, o, s. auto.
    + rewrite refresh_token_fail_fast in E; [discriminate|].
      rewrite py_or_dict_default, Hheld. auto.
  - intros (rt & new_token & o & s & Hrt & Hx & Hs).
    rewrite (refresh_token_exchange None w d rt Hheld Hrt), Hx. cbn zeta.
    rewrite Hs. eauto.
Qed.

(** C9.  With the flag and the held record in step, and the held record
    carrying an integer ["expires_at"], [is_authenticated] returns, and
    returns [True] exactly when a record is held and it is either still
    valid or refreshed successfully inside the call.  The call is not
    read-only: on the sample world below it changes both the held record
    and the flag. *)
Theorem is_authenticated_iff (w : W) :
  flag_matches_token w ->
  (forall d, _token_info w = Some d -> exists e, d !! "expires_at" = Some (PyInt e)) ->
  (exists (b : bool) (w' : W),
     is_authenticated w = (Ok b, w') /\
     (b = true <->
      exists d e,
        _token_info w = Some d /\
        d !! "expires_at" = Some (PyInt e) /\
        ((60 <= e - clock w)%Z \/ refresh_succeeds w d))) /\
  (exists w0 : world provider token_file cache_dir,
     _token_info (snd (is_authenticated w0)) <> _token_info w0 /\
     _authenticated (snd (is_authenticated w0)) <> _authenticated w0).
Proof.
  intros Hinv Hwf. split.
  - unfold flag_matches_token in Hinv.
    destruct (_token_info w) as [d|] eqn:Hheld; cbn in Hinv.
    + destruct (Hwf d eq_refl) as [e He].
      assert (Hd : truthy_dict (Some d) = true)
        by exact (truthy_dict_Some d (lookup_nonempty _ _ _ He)).
      destruct (Z.ltb_spec (e - clock w) 60) as [Hstale | Hvalid].
      * destruct (refresh_token_outcome None w) as [[w1 E] | [t [w1 E]]].
        -- exists false. eexists. split.
           ++ unfold is_authenticated. step_world. rewrite Hinv, Hheld, Hd.
              cbn [andb]. rewrite (is_token_expired_eq d e w He).
              replace (e - clock w <? 60)%Z with true
                by (symmetry; apply Z.ltb_lt; lia).
              cbn [negb]. rewrite E. reflexivity.
           ++ split; [discriminate|].
              intros (d' & e' & Hd' & He' & [Hv | Hr]).
              ** replace d' with d in * by congruence.
                 rewrite He in He'. inversion He'. lia.
              ** replace d' with d in * by congruence.
                 apply (refresh_token_held_returns w d Hheld) in Hr.
                 destruct Hr as (t & w2 & E2). rewrite E in E2. discriminate.
        -- exists true. eexists. split.
           ++ unfold is_authenticated. step_world. rewrite Hinv, Hheld, Hd.
              cbn [andb]. rewrite (is_token_expired_eq d e w He).
              replace (e - clock w <? 60)%Z with true
                by (symmetry; apply Z.ltb_lt; lia).
              cbn [negb]. rewrite E. reflexivity.
           ++ split; [|reflexivity]. intros _. exists d, e.
              split; [reflexivity|]. split; [assumption|]. right.
              apply (refresh_token_held_returns w d Hheld). eauto.
      * exists true, w. split.
        -- unfold is_authenticated. step_world. rewrite Hinv, Hheld, Hd.
           cbn [andb]. rewrite (is_token_expired_eq d e w He).
           replace (e - clock w <? 60)%Z with false
             by (symmetry; apply Z.ltb_ge; lia).
           reflexivity.
        -- split; [|reflexivity]. intros _. exists d, e. auto.
    + exists false, w. split.
      * unfold is_authenticated. step_world. rewrite Hinv, Hheld. reflexivity.
      * split; [discriminate|]. intros (d & e & Hd & _). discriminate.
  - exists (sample_world (Some (token_without_refresh "A0" 1000))
              (TokenFile None true) (CacheDir [] true) 2000).
    split; vm_compute; discriminate.
Qed.

(** ** The flag and the held record stay in step *)

Lemma flag_unauthenticated (w : W) : flag_matches_token (unauthenticated w).
Proof. reflexivity. Qed.

Lemma flag_authenticated_with (t : dict) (w : W) :
  flag_matches_token (authenticated_with t w).
Proof. reflexivity. Qed.

Lemma is_token_expired_state (t : option dict) (w : W) :
  exists r, _is_token_expired t w = (r, w).
Proof.
  unfold _is_token_expired, time_time, subscript, py_sub. step_world.
  destruct t as [d|]; [|eauto].
  destruct (d !! "expires_at") as [[| z | s]|]; eauto.
Qed.

Lemma subscript_state (t : option dict) (key : string) (w : W) :
  exists r, subscript t key w = (r, w).
Proof.
  unfold subscript. step_world. destruct t as [d|]; [|eauto].
  destruct (d !! key); eauto.
Qed.

Lemma flag_after_refresh_token (arg : option dict) (w : W) :
  flag_matches_token (snd (refresh_token arg w)).
Proof.
  destruct (refresh_token_outcome arg w) as [[w' E] | [t [w' E]]];
    rewrite E; reflexivity.
Qed.

Lemma flag_after_handle_callback (code : string) (w : W) :
  flag_matches_token (snd (handle_callback code w)).
Proof.
  unfold handle_callback. step_world.
  destruct (get_access_token (self_oauth w) code) as [[t|e] o]; [|reflexivity].
  read_world.
  destruct (save_token (self_token_manager w) t) as [[[]|e] s]; reflexivity.
Qed.

Lemma flag_after_get_token (w : W) :
  flag_matches_token w -> flag_matches_token (snd (get_token w)).
Proof.
  intros Hinv. unfold get_token. step_world.
  destruct (negb (_authenticated w) || negb (truthy_dict (_token_info w)));
    [assumption|].
  destruct (is_token_expired_state (_token_info w) w) as [[[|]|e] E]; rewrite E.
  - destruct (refresh_token_outcome None w) as [[w' R] | [t [w' R]]]; rewrite R.
    + reflexivity.
    + destruct (negb (truthy_dict (Some t))); [reflexivity|].
      unfold authenticated_with. read_world.
      match goal with
      | |- context [subscript ?d ?k ?w0] =>
          destruct (subscript_state d k w0) as [r Hr]; rewrite Hr
      end.
      reflexivity.
  - destruct (subscript_state (_token_info w) "access_token" w) as [r Hr].
    rewrite Hr. assumption.
  - assumption.
Qed.

Lemma flag_after_get_spotify_client (w : W) :
  flag_matches_token w -> flag_matches_token (snd (get_spotify_client w)).
Proof.
  intros Hinv. apply flag_after_get_token in Hinv.
  unfold get_spotify_client. step_world.
  destruct (get_token w) as [[token|e] w']; [|assumption].
  destruct (negb (truthy_val token)); assumption.
Qed.

Lemma flag_after_is_authenticated (w : W) :
  flag_matches_token w -> flag_matches_token (snd (is_authenticated w)).
Proof.
  intros Hinv. unfold is_authenticated. step_world.
  destruct (_authenticated w && truthy_dict (_token_info w)); [|assumption].
  destruct (is_token_expired_state (_token_info w) w) as [[[|]|e] E]; rewrite E.
  - cbn [negb].
    destruct (refresh_token_outcome None w) as [[w' R] | [t [w' R]]]; rewrite R;
      reflexivity.
  - assumption.
  - assumption.
Qed.

Lemma flag_after_disconnect (w : W) :
  flag_matches_token w -> flag_matches_token (snd (disconnect w)).
Proof.
  intros Hinv. unfold disconnect. step_world.
  destruct (delete_token (self_token_manager w)) as [[[]|e] s]; [|assumption].
  read_world.
  destruct (clear_all_cache (self_cache_manager w)) as [[[]|e] c];
    [reflexivity | assumption].
Qed.

Lemma flag_after_clear_cache (w : W) :
  flag_matches_token w -> flag_matches_token (snd (clear_cache w)).
Proof.
  intros Hinv. unfold clear_cache. step_world.
  destruct (clear_all_cache (self_cache_manager w)) as [[[]|e] c]; assumption.
Qed.

Lemma flag_after_get_auth_url (w : W) :
  flag_matches_token w -> flag_matches_token (snd (get_auth_url w)).
Proof.
  intros Hinv. unfold get_auth_url. step_world.
  destruct (get_authorize_url (self_oauth w)) as [[u|e] o]; assumption.
Qed.

Lemma flag_after_load_saved_token (w : W) :
  flag_matches_token w -> flag_matches_token (snd (_load_saved_token w)).
Proof.
  intros Hinv. unfold _load_saved_token. step_world.
  destruct (load_token (self_token_manager w)) as [[loaded|e] s]; [|assumption].
  destruct (truthy_dict loaded) eqn:Hloaded; [|assumption].
  match goal with
  | |- context [_is_token_expired loaded ?w0] =>
      destruct (is_token_expired_state loaded w0) as [[[|]|e] E]; rewrite E
  end.
  - match goal with
    | |- context [refresh_token loaded ?w0] =>
        destruct (refresh_token_outcome loaded w0) as [[w' R] | [t [w' R]]];
          rewrite R
    end.
    + reflexivity.
    + destruct (truthy_dict (Some t)); reflexivity.
  - rewrite Hloaded. apply truthy_dict_true in Hloaded.
    destruct Hloaded as (d & -> & _). reflexivity.
  - assumption.
Qed.

Lemma flag_after_init environ client_id client_secret redirect_uri
    (tm : S) (cm : C) (oa : O) (now : Z) (w : W) :
  __init__ environ client_id client_secret redirect_uri tm cm oa now = Ok w ->
  flag_matches_token w.
Proof.
  unfold __init__.
  destruct (negb (py_all _)); [discriminate|].
  match goal with
  | |- context [_load_saved_token ?w0] =>
      pose proof (flag_after_load_saved_token w0 eq_refl) as Hflag;
      destruct (_load_saved_token w0) as [[[]|e] w1]
  end; [|discriminate].
  intros E. inversion E. subst. exact Hflag.
Qed.

(** C10.  Construction leaves the flag set exactly when a record is held
    ([_token_info is not None]), and every public operation, started in
    such a state, ends in such a state, whether it returns or raises. *)
Theorem flag_matches_token_kept :
  (forall environ client_id client_secret redirect_uri
          (tm : S) (cm : C) (oa : O) (now : Z) (w : W),
     __init__ environ client_id client_secret redirect_uri tm cm oa now = Ok w ->
     flag_matches_token w) /\
  (forall (op : operation) (w : W),
     flag_matches_token w -> flag_matches_token (after op w)).
Proof.
  split.
  - intros. eapply flag_after_init. eassumption.
  - intros [| code | arg | | | | |] w Hinv; cbn [after].
    + now apply flag_after_get_auth_url.
    + apply flag_after_handle_callback.
    + apply flag_after_refresh_token.
    + now apply flag_after_get_token.
    + now apply flag_after_get_spotify_client.
    + now apply flag_after_is_authenticated.
    + now apply flag_after_disconnect.
    + now apply flag_after_clear_cache.
Qed.

(** Hence the flag and the held record are in step in every world a
    manager can be in. *)
Lemma reachable_flag_matches_token (w : W) :
  reachable w -> flag_matches_token w.
Proof.
  induction 1 as [? ? ? ? ? ? ? ? w E | op w _ IH | now w _ IH].
  - eapply flag_after_init. eassumption.
  - destruct op; cbn [after];
      auto using flag_after_get_auth_url, flag_after_handle_callback,
        flag_after_refresh_token, flag_after_get_token,
        flag_after_get_spotify_client, flag_after_is_authenticated, flag_after_disconnect,
        flag_after_clear_cache.
  - exact IH.
Qed.

(** ** [disconnect] *)

Section Disconnect.

Context `{!TokenManagerLaws S, !CacheManagerLaws C}.

(** C8, amended.  [disconnect] never raises.  When it returns [True] the
    token store has nothing left to load, the cache store is cleared and
    the in-memory state is reset.  It returns [False] exactly when
    [delete_token] or [clear_all_cache] raises, and then it leaves the
    flag and the held record as they were. *)
Theorem disconnect_outcome (w : W) :
  exists (b : bool) (w' : W),
    disconnect w = (Ok b, w') /\
    (b = true ->
       fst (load_token (self_token_manager w')) = Ok None /\
       cache_cleared (self_cache_manager w') = true /\
       _authenticated w' = false /\
       _token_info w' = None) /\
    (b = false <->
       is_ok (fst (delete_token (self_token_manager w))) = false \/
       is_ok (fst (clear_all_cache (self_cache_manager w))) = false) /\
    (b = false ->
       _authenticated w' = _authenticated w /\ _token_info w' = _token_info w).
Proof.
  unfold disconnect. step_world.
  destruct (delete_token (self_token_manager w)) as [[[]|e] s] eqn:Hdel.
  - read_world.
    destruct (clear_all_cache (self_cache_manager w)) as [[[]|e] c] eqn:Hclr.
    + exists true. eexists. split; [reflexivity|]. read_world. cbn [fst is_ok].
      split; [|split].
      * intros _. split; [|split; [|split]]; try reflexivity.
        -- eapply load_after_delete. eassumption.
        -- eapply cleared_after_clear. eassumption.
      * split; [discriminate | intros [?|?]; discriminate].
      * discriminate.
    + exists false. eexists. split; [reflexivity|]. read_world. cbn [fst is_ok].
      split; [discriminate|]. split; [|auto]. split; auto.
  - exists false. eexists. split; [reflexivity|]. read_world. cbn [fst is_ok].
    split; [discriminate|]. split; [|auto]. split; auto.
Qed.

End Disconnect.

(** ** Construction *)




End Properties.

(** * The scripted collaborators at work *)

#[global] Instance token_file_laws : TokenManagerLaws token_file.
Proof.
  split. intros [t [|]] s'; cbn; intros E; inversion E; reflexivity.
Qed.

#[global] Instance cache_dir_laws : CacheManagerLaws cache_dir.
Proof.
  split. intros [l [|]] c'; cbn; intros E; inversion E; reflexivity.
Qed.

(** ** Where the claims as first stated fail *)

(** C1 as stated fails when the token store cannot be written: the held
    record is stale, the provider accepts its refresh token, and
    [get_token] still returns [None] and leaves the manager
    unauthenticated. *)
Lemma get_token_refresh_not_saved :
  _authenticated (stale_world false) = true /\
  _token_info (stale_world false) = Some held_record /\
  held_record !! "expires_at" = Some (PyInt 1000) /\
  (1000 - clock (stale_world false) < 60)%Z /\
  held_record !! "refresh_token" = Some (PyStr "R0") /\
  fst (refresh_access_token (self_oauth (stale_world false)) (PyStr "R0"))
    = Ok (token_record "A2" "R2" 8200) /\
  fst (get_token (stale_world false)) = Ok PyNone /\
  _authenticated (snd (get_token (stale_world false))) = false.
Proof. vm_compute. repeat split; lia. Qed.

(** C4 as stated fails in two ways.  The provider accepts ["code1"], the
    token store cannot be written, and [handle_callback] returns [False]
    with [is_authenticated] false afterwards.  And with a token store
    that can be written, [handle_callback] returns [True], but
    [is_authenticated], called when the record has run out and the
    provider no longer renews it, returns [False]. *)
Lemma handle_callback_accepted_not_authenticated :
  (fst (get_access_token (self_oauth (fresh_world false)) "code1")
     = Ok (token_record "A1" "R1" 4600) /\
   fst (handle_callback "code1" (fresh_world false)) = Ok false /\
   fst (is_authenticated (snd (handle_callback "code1" (fresh_world false))))
     = Ok false) /\
  (fst (handle_callback "code1" (fresh_world true)) = Ok true /\
   fst (is_authenticated
          (with_clock 4600 (snd (handle_callback "code1" (fresh_world true)))))
     = Ok false).
Proof. vm_compute. repeat split. Qed.


(** C7 as stated fails for an empty dictionary given as the argument:
    it is the explicit argument and has no ["refresh_token"] key, yet
    line 171 falls back to the held record, whose refresh token is
    exchanged, and the answer is saved and held. *)
Lemma refresh_token_empty_argument_refreshes :
  record_to_refresh (Some ∅) (_token_info (stale_world true)) = Some ∅ /\
  (∅ : dict) !! "refresh_token" = None /\
  fst (refresh_token (Some ∅) (stale_world true))
    = Ok (Some (token_record "A2" "R2" 8200)) /\
  _authenticated (snd (refresh_token (Some ∅) (stale_world true))) = true /\
  saves (trace (snd (refresh_token (Some ∅) (stale_world true)))) = 1.
Proof. repeat split; vm_compute; reflexivity. Qed.

(** C8 as stated fails when [delete_token] raises: [disconnect] returns
    [False], the token store still loads the record, and the cache is
    not cleared. *)
Lemma disconnect_delete_raises :
  fst (disconnect (stale_world false)) = Ok false /\
  fst (load_token (self_token_manager (snd (disconnect (stale_world false)))))
    = Ok (Some held_record) /\
  cache_cleared (self_cache_manager (snd (disconnect (stale_world false))))
    = false.
Proof. vm_compute. repeat split. Qed.

(** ** The theorems at concrete inputs *)

Lemma is_token_expired_iff_witness :
  exists stale : bool,
    _is_token_expired (Some held_record) (stale_world true)
      = (Ok stale, stale_world true) /\
    (stale = true <-> (1000 - clock (stale_world true) < 60)%Z).
Proof. apply (is_token_expired_iff held_record 1000). reflexivity. Defined.

Lemma refresh_token_swallows_exchange_error_witness :
  exists w',
    refresh_token None revoked_world = (Ok None, w') /\
    _authenticated w' = false /\
    _token_info w' = None.
Proof.
  apply (refresh_token_swallows_exchange_error None revoked_world
           (token_record "A0" "R9" 1000) (PyStr "R9")
           (SpotifyOauthError "invalid_grant") sample_provider);
    reflexivity.
Defined.

Lemma refresh_token_without_refresh_token_witness :
  exists w',
    refresh_token (Some (token_without_refresh "A0" 1000)) (stale_world true)
      = (Ok None, w') /\
    _authenticated w' = false /\
    _token_info w' = None /\
    trace w' = trace (stale_world true) /\
    saves (trace w') = saves (trace (stale_world true)) /\
    self_token_manager w' = self_token_manager (stale_world true).
Proof.
  apply (refresh_token_without_refresh_token
           (Some (token_without_refresh "A0" 1000)) (stale_world true)).
  reflexivity.
Defined.

Lemma handle_callback_rejected_witness :
  exists w',
    handle_callback "stolen" (fresh_world true) = (Ok false, w') /\
    trace w' = (trace (fresh_world true) ++ [EvGetAccessToken "stolen"])%list /\
    saves (trace w') = saves (trace (fresh_world true)) /\
    self_token_manager w' = self_token_manager (fresh_world true) /\
    forall now, is_authenticated (with_clock now w') = (Ok false, with_clock now w').
Proof.
  apply (handle_callback_rejected "stolen" (fresh_world true)
           (SpotifyOauthError "invalid_grant") sample_provider).
  reflexivity.
Defined.

Lemma handle_callback_accepted_witness :
  exists w',
    handle_callback "code1" (fresh_world true) = (Ok true, w') /\
    _authenticated w' = true /\
    _token_info w' = Some (token_record "A1" "R1" 4600) /\
    trace w' =
      (trace (fresh_world true) ++
       [EvGetAccessToken "code1"; EvSaveToken (token_record "A1" "R1" 4600)])%list /\
    self_token_manager w' = TokenFile (Some (token_record "A1" "R1" 4600)) true /\
    forall now e,
      token_record "A1" "R1" 4600 !! "expires_at" = Some (PyInt e) ->
      (60 <= e - now)%Z ->
      is_authenticated (with_clock now w') = (Ok true, with_clock now w').
Proof.
  apply (handle_callback_accepted "code1" (fresh_world true)
           (token_record "A1" "R1" 4600) sample_provider);
    reflexivity.
Defined.

Lemma get_token_refreshes_stale_witness :
  exists w',
    get_token (stale_world true) = (Ok (PyStr "A2"), w') /\
    _authenticated w' = true /\
    _token_info w' = Some (token_record "A2" "R2" 8200) /\
    trace w' =
      (trace (stale_world true) ++
       [EvRefreshAccessToken (PyStr "R0");
        EvSaveToken (token_record "A2" "R2" 8200)])%list /\
    saves (trace w') = Datatypes.S (saves (trace (stale_world true))) /\
    self_token_manager w' = TokenFile (Some (token_record "A2" "R2" 8200)) true.
Proof.
  apply (get_token_refreshes_stale (stale_world true) held_record 1000
           (PyStr "R0") (token_record "A2" "R2" 8200) sample_provider);
    reflexivity.
Defined.

Lemma is_authenticated_iff_witness :
  exists (b : bool) w',
    is_authenticated (stale_world true) = (Ok b, w') /\
    (b = true <->
     exists d e,
       _token_info (stale_world true) = Some d /\
       d !! "expires_at" = Some (PyInt e) /\
       ((60 <= e - clock (stale_world true))%Z \/
        refresh_succeeds (stale_world true) d)).
Proof.
  apply (is_authenticated_iff (stale_world true)).
  - reflexivity.
  - intros d E. inversion E. exists 1000%Z. reflexivity.
Defined.

Lemma disconnect_outcome_witness :
  exists (b : bool) w',
    disconnect (stale_world true) = (Ok b, w') /\
    (b = true ->
       fst (load_token (self_token_manager w')) = Ok None /\
       cache_cleared (self_cache_manager w') = true /\
       _authenticated w' = false /\
       _token_info w' = None) /\
    (b = false <->
       is_ok (fst (delete_token (self_token_manager (stale_world true)))) = false \/
       is_ok (fst (clear_all_cache (self_cache_manager (stale_world true)))) = false) /\
    (b = false ->
       _authenticated w' = _authenticated (stale_world true) /\
       _token_info w' = _token_info (stale_world true)).
Proof. apply (disconnect_outcome (stale_world true)). Defined.

Lemma flag_matches_token_kept_witness :
  flag_matches_token (after GetToken (stale_world false)) /\
  flag_matches_token (after (HandleCallback "code1") (fresh_world true)).
Proof.
  split; apply (proj2 flag_matches_token_kept); reflexivity.
Defined.


(** * Further behaviour of the methods *)

Section Behaviour.

Context {O S C : Type}.
Context `{OAuthClient O, TokenManager S, CacheManager C}.

Local Abbreviation W := (world O S C).

(** ** [refresh_token] *)

(** X1.  [refresh_token] never raises; what it returns is what the
    manager holds afterwards, and the flag is set exactly when it returned
    a record. *)
Theorem refresh_token_answer_is_held (arg : option dict) (w : W) :
  exists (r : option dict) (w' : W),
    refresh_token arg w = (Ok r, w') /\
    _token_info w' = r /\
    _authenticated w' = is_not_none r.
Proof.
  destruct (refresh_token_outcome arg w) as [[w' E] | [t [w' E]]];
    rewrite E; eexists; eexists; split; try reflexivity; split; reflexivity.
Qed.

(** X2.  An explicit record with a refresh token is the one refreshed,
    whatever the manager holds: its refresh token goes to the provider,
    and when the exchange and the save complete the answer is returned,
    held and the only record saved. *)
Theorem refresh_token_uses_argument (d : dict) (w : W) (rt : pyval)
    (new_token : dict) (o : O) (s : S) :
  d !! "refresh_token" = Some rt ->
  refresh_access_token (self_oauth w) rt = (Ok new_token, o) ->
  save_token (self_token_manager w) new_token = (Ok tt, s) ->
  exists w',
    refresh_token (Some d) w = (Ok (Some new_token), w') /\
    _authenticated w' = true /\
    _token_info w' = Some new_token /\
    trace w' =
      (trace w ++ [EvRefreshAccessToken rt; EvSaveToken new_token])%list /\
    self_token_manager w' = s /\
    self_oauth w' = o.
Proof.
  intros Hrt Hx Hs.
  assert (E : py_or_dict (Some d) (_token_info w) = Some d)
    by exact (py_or_dict_given d _ (lookup_nonempty _ _ _ Hrt)).
  rewrite (refresh_token_exchange (Some d) w d rt E Hrt), Hx. cbn zeta.
  rewrite Hs. eexists. split; [reflexivity|].
  unfold authenticated_with. read_world.
  repeat split. now rewrite <- app_assoc.
Qed.

(** X3.  When the provider renews the token but the save raises,
    [refresh_token] returns [None] and the manager ends up
    unauthenticated with no record, although the exchange was made. *)
Theorem refresh_token_save_raises (arg : option dict) (w : W) (d : dict)
    (rt : pyval) (new_token : dict) (o : O) (e : exn) (s : S) :
  py_or_dict arg (_token_info w) = Some d ->
  d !! "refresh_token" = Some rt ->
  refresh_access_token (self_oauth w) rt = (Ok new_token, o) ->
  save_token (self_token_manager w) new_token = (Raise e, s) ->
  exists w',
    refresh_token arg w = (Ok None, w') /\
    _authenticated w' = false /\
    _token_info w' = None /\
    trace w' =
      (trace w ++ [EvRefreshAccessToken rt; EvSaveToken new_token])%list /\
    self_token_manager w' = s.
Proof.
  intros E Hrt Hx Hs.
  rewrite (refresh_token_exchange arg w d rt E Hrt), Hx. cbn zeta.
  rewrite Hs. eexists. split; [reflexivity|].
  unfold unauthenticated. read_world.
  repeat split. now rewrite <- app_assoc.
Qed.

(** ** [get_token], [get_spotify_client] and [is_authenticated] *)

(** X4.  A manager whose flag is off, or that holds nothing (or an empty
    record), answers [None], no client and [False]; none of the three
    methods calls a collaborator or changes anything. *)
Theorem unauthenticated_answers (w : W) :
  _authenticated w = false \/ truthy_dict (_token_info w) = false ->
  get_token w = (Ok PyNone, w) /\
  get_spotify_client w = (Ok None, w) /\
  is_authenticated w = (Ok false, w).
Proof.
  intros Hoff.
  assert (Hget : get_token w = (Ok PyNone, w)).
  { unfold get_token. step_world.
    destruct Hoff as [-> | ->]; [reflexivity|].
    now rewrite orb_true_r. }
  split; [assumption|]. split.
  - unfold get_spotify_client. step_world. rewrite Hget. reflexivity.
  - unfold is_authenticated. step_world.
    destruct Hoff as [-> | ->]; [reflexivity|].
    now rewrite andb_false_r.
Qed.

(** X5.  While the held record is valid (at least 60 seconds left), no
    refresh is attempted: [get_token] returns the held access token,
    [is_authenticated] returns [True], and the world stays as it is. *)
Theorem valid_record_is_used (w : W) (d : dict) (e : Z) (access : pyval) :
  _authenticated w = true ->
  _token_info w = Some d ->
  d !! "expires_at" = Some (PyInt e) ->
  (60 <= e - clock w)%Z ->
  d !! "access_token" = Some access ->
  get_token w = (Ok access, w) /\ is_authenticated w = (Ok true, w).
Proof.
  intros Hauth Hheld He Hvalid Hacc.
  assert (Hd : truthy_dict (Some d) = true)
    by exact (truthy_dict_Some d (lookup_nonempty _ _ _ He)).
  assert (Hfresh : (e - clock w <? 60)%Z = false) by (apply Z.ltb_ge; lia).
  split.
  - unfold get_token. step_world. rewrite Hauth, Hheld, Hd. cbn [negb orb].
    rewrite (is_token_expired_eq d e w He), Hfresh.
    unfold subscript. step_world. rewrite Hheld, Hacc. reflexivity.
  - unfold is_authenticated. step_world. rewrite Hauth, Hheld, Hd. cbn [andb].
    rewrite (is_token_expired_eq d e w He), Hfresh. reflexivity.
Qed.

Lemma refresh_token_held_fails (w : W) (d : dict) :
  _token_info w = Some d ->
  ~ refresh_succeeds w d ->
  exists w', refresh_token None w = (Ok None, unauthenticated w').
Proof.
  intros Hheld Hno.
  destruct (refresh_token_outcome None w) as [[w' E] | [t [w' E]]]; [eauto|].
  exfalso. apply Hno. apply (refresh_token_held_returns w d Hheld). eauto.
Qed.

(** X6.  When the held record is stale and cannot be refreshed (no
    refresh token, the provider refuses, or the save raises),
    [get_token] returns [None] and [is_authenticated] returns [False];
    either call leaves the manager unauthenticated with no record. *)
Theorem stale_record_not_refreshed (w : W) (d : dict) (e : Z) :
  _authenticated w = true ->
  _token_info w = Some d ->
  d !! "expires_at" = Some (PyInt e) ->
  (e - clock w < 60)%Z ->
  ~ refresh_succeeds w d ->
  exists w',
    get_token w = (Ok PyNone, w') /\
    is_authenticated w = (Ok false, w') /\
    _authenticated w' = false /\
    _token_info w' = None.
Proof.
  intros Hauth Hheld He Hstale Hno.
  assert (Hd : truthy_dict (Some d) = true)
    by exact (truthy_dict_Some d (lookup_nonempty _ _ _ He)).
  assert (Hold : (e - clock w <? 60)%Z = true) by (apply Z.ltb_lt; lia).
  destruct (refresh_token_held_fails w d Hheld Hno) as [w1 E].
  exists (with_token_info None (unauthenticated w1)).
  split; [|split; [|split; reflexivity]].
  - unfold get_token. step_world. rewrite Hauth, Hheld, Hd. cbn [negb orb].
    rewrite (is_token_expired_eq d e w He), Hold, E. reflexivity.
  - unfold is_authenticated. step_world. rewrite Hauth, Hheld, Hd. cbn [andb].
    rewrite (is_token_expired_eq d e w He), Hold. cbn [negb].
    rewrite E. reflexivity.
Qed.

(** X7.  [is_authenticated] has exactly the side effects of [get_token]:
    from the same world the two calls end in the same world. *)
Theorem is_authenticated_world_is_get_token_world (w : W) :
  snd (is_authenticated w) = snd (get_token w).
Proof.
  unfold is_authenticated, get_token. step_world.
  destruct (_authenticated w); [|reflexivity].
  destruct (truthy_dict (_token_info w)); [|reflexivity].
  cbn [negb orb andb].
  destruct (is_token_expired_state (_token_info w) w) as [[[|]|e] E]; rewrite E.
  - cbn [negb].
    destruct (refresh_token_outcome None w) as [[w' R] | [t [w' R]]]; rewrite R.
    + reflexivity.
    + destruct (negb (truthy_dict (Some t))); [reflexivity|].
      match goal with
      | |- context [subscript ?d ?k ?w0] =>
          destruct (subscript_state d k w0) as [r Hr]; rewrite Hr
      end.
      reflexivity.
  - destruct (subscript_state (_token_info w) "access_token" w) as [r Hr].
    rewrite Hr. reflexivity.
  - reflexivity.
Qed.

Lemma subscript_returns (t : option dict) (key : string) (v : pyval) (w w' : W) :
  subscript t key w = (Ok v, w') ->
  w' = w /\ exists d, t = Some d /\ d !! key = Some v.
Proof.
  unfold subscript. step_world. destruct t as [d|]; [|discriminate].
  destruct (d !! key) as [x|] eqn:E; [|discriminate].
  intros Heq. inversion Heq. subst. eauto.
Qed.

Lemma get_token_returned (w w' : W) (v : pyval) :
  get_token w = (Ok v, w') ->
  v <> PyNone ->
  _authenticated w' = true /\
  exists d, _token_info w' = Some d /\ d !! "access_token" = Some v.
Proof.
  unfold get_token. step_world.
  destruct (_authenticated w) eqn:Hauth;
    [|intros E; inversion E; contradiction].
  destruct (truthy_dict (_token_info w)) eqn:Hheld;
    [|intros E; inversion E; contradiction].
  cbn [negb orb].
  destruct (is_token_expired_state (_token_info w) w) as [[[|]|e] E]; rewrite E.
  - destruct (refresh_token_outcome None w) as [[w1 R] | [t [w1 R]]]; rewrite R.
    + intros Heq. inversion Heq. contradiction.
    + destruct (negb (truthy_dict (Some t)));
        [intros Heq; inversion Heq; contradiction|].
      intros Heq Hv. apply subscript_returns in Heq.
      destruct Heq as (-> & d & Hd & Hacc). split; [reflexivity|].
      exists d. split; assumption.
  - intros Heq Hv. apply subscript_returns in Heq.
    destruct Heq as (-> & d & Hd & Hacc). split; [assumption|].
    exists d. split; assumption.
  - discriminate.
Qed.

(** X8.  Whenever [get_token] returns something other than [None], the
    manager is authenticated on return and the value is the access token
    of the record it holds then. *)
Theorem get_token_returns_held_access_token (w w' : W) (v : pyval) :
  get_token w = (Ok v, w') ->
  v <> PyNone ->
  _authenticated w' = true /\
  exists d, _token_info w' = Some d /\ d !! "access_token" = Some v.
Proof. apply get_token_returned. Qed.

(** X9.  A client returned by [get_spotify_client] is bound to the
    access token of the record held on return, and that token is truthy
    (not [None], not the empty string). *)
Theorem get_spotify_client_bound_to_held_token (w w' : W) (c : Spotify) :
  get_spotify_client w = (Ok (Some c), w') ->
  truthy_val (auth c) = true /\
  _authenticated w' = true /\
  exists d, _token_info w' = Some d /\ d !! "access_token" = Some (auth c).
Proof.
  unfold get_spotify_client. step_world.
  destruct (get_token w) as [[v|e] w1] eqn:Hget; [|discriminate].
  destruct (truthy_val v) eqn:Hv; cbn [negb]; [|discriminate].
  intros Heq. inversion Heq. subst. cbn [auth]. split; [assumption|].
  apply (get_token_returned w w' v Hget).
  intros ->. discriminate.
Qed.

(** X10.  With the flag and the held record in step and no empty record
    held, the answer of [is_authenticated] is the flag it leaves behind,
    and after a [False] answer no record is held. *)
Theorem is_authenticated_answer_is_flag (w w' : W) (b : bool) :
  flag_matches_token w ->
  _token_info w <> Some ∅ ->
  is_authenticated w = (Ok b, w') ->
  _authenticated w' = b /\ (b = false -> _token_info w' = None).
Proof.
  intros Hinv Hne. unfold flag_matches_token in Hinv.
  unfold is_authenticated. step_world.
  destruct (_token_info w) as [d|] eqn:Hheld; cbn in Hinv; rewrite Hinv.
  - assert (Hd : truthy_dict (Some d) = true).
    { apply truthy_dict_Some. intros ->. contradiction. }
    rewrite Hd. cbn [andb].
    destruct (is_token_expired_state (Some d) w) as [[[|]|e] E]; rewrite E.
    + cbn [negb].
      destruct (refresh_token_outcome None w) as [[w1 R] | [t [w1 R]]];
        rewrite R; intros Heq; inversion Heq; subst; split;
        try reflexivity; discriminate.
    + cbn [negb]. intros Heq. inversion Heq. subst.
      split; [assumption | discriminate].
    + discriminate.
  - cbn [andb]. intros Heq. inversion Heq. subst.
    split; [assumption | intros _; assumption].
Qed.

(** ** Exceptions that escape *)

(** X11.  The expiry check is outside every [try]: when the manager is
    authenticated and the held record is not empty and has no
    ["expires_at"] key, [get_token], [get_spotify_client] and
    [is_authenticated] all raise [KeyError], leaving the world as it was.
    (An empty held record counts as none held: see X4.) *)
Theorem missing_expires_at_raises (w : W) (d : dict) :
  _authenticated w = true ->
  _token_info w = Some d ->
  d <> ∅ ->
  d !! "expires_at" = None ->
  get_token w = (Raise (KeyError "expires_at"), w) /\
  get_spotify_client w = (Raise (KeyError "expires_at"), w) /\
  is_authenticated w = (Raise (KeyError "expires_at"), w).
Proof.
  intros Hauth Hheld Hd He.
  assert (Hexp : _is_token_expired (Some d) w = (Raise (KeyError "expires_at"), w)).
  { unfold _is_token_expired, time_time, subscript. step_world.
    rewrite He. reflexivity. }
  assert (Hget : get_token w = (Raise (KeyError "expires_at"), w)).
  { unfold get_token. step_world.
    rewrite Hauth, Hheld, (truthy_dict_Some d Hd). cbn [negb orb].
    rewrite Hexp. reflexivity. }
  split; [assumption|]. split.
  - unfold get_spotify_client. step_world. rewrite Hget. reflexivity.
  - unfold is_authenticated. step_world.
    rewrite Hauth, Hheld, (truthy_dict_Some d Hd). cbn [andb].
    rewrite Hexp. reflexivity.
Qed.

(** X12.  Likewise, when ["expires_at"] is present but not an integer
    ([None] or a string), [get_token] and [is_authenticated] raise
    [TypeError], leaving the world as it was. *)
Theorem non_integer_expires_at_raises (w : W) (d : dict) (v : pyval) :
  _authenticated w = true ->
  _token_info w = Some d ->
  d !! "expires_at" = Some v ->
  (forall z, v <> PyInt z) ->
  get_token w = (Raise TypeError, w) /\
  is_authenticated w = (Raise TypeError, w).
Proof.
  intros Hauth Hheld He Hv.
  assert (Hd : truthy_dict (Some d) = true)
    by exact (truthy_dict_Some d (lookup_nonempty _ _ _ He)).
  assert (Hexp : _is_token_expired (Some d) w = (Raise TypeError, w)).
  { unfold _is_token_expired, time_time, subscript, py_sub. step_world.
    rewrite He. destruct v as [| z | s]; try reflexivity.
    now destruct (Hv z). }
  split.
  - unfold get_token. step_world. rewrite Hauth, Hheld, Hd. cbn [negb orb].
    rewrite Hexp. reflexivity.
  - unfold is_authenticated. step_world. rewrite Hauth, Hheld, Hd. cbn [andb].
    rewrite Hexp. reflexivity.
Qed.

(** X13.  The last line of [get_token] is outside the [try] as well: for
    a valid held record without an ["access_token"] key, [get_token]
    raises [KeyError] while [is_authenticated] returns [True]. *)
Theorem missing_access_token_raises (w : W) (d : dict) (e : Z) :
  _authenticated w = true ->
  _token_info w = Some d ->
  d !! "expires_at" = Some (PyInt e) ->
  (60 <= e - clock w)%Z ->
  d !! "access_token" = None ->
  get_token w = (Raise (KeyError "access_token"), w) /\
  is_authenticated w = (Ok true, w).
Proof.
  intros Hauth Hheld He Hvalid Hacc.
  assert (Hd : truthy_dict (Some d) = true)
    by exact (truthy_dict_Some d (lookup_nonempty _ _ _ He)).
  assert (Hfresh : (e - clock w <? 60)%Z = false) by (apply Z.ltb_ge; lia).
  split.
  - unfold get_token. step_world. rewrite Hauth, Hheld, Hd. cbn [negb orb].
    rewrite (is_token_expired_eq d e w He), Hfresh.
    unfold subscript. step_world. rewrite Hheld, Hacc. reflexivity.
  - unfold is_authenticated. step_world. rewrite Hauth, Hheld, Hd. cbn [andb].
    rewrite (is_token_expired_eq d e w He), Hfresh. reflexivity.
Qed.

(** ** [handle_callback], [clear_cache] and [disconnect] *)

(** X14.  [handle_callback] never raises.  Its answer is the flag it
    leaves behind; the answer is [True] exactly when the provider accepts
    the code and the save of the answer completes, and then the answer of
    the provider is held; after [False] nothing is held, whatever was
    held before. *)
Theorem handle_callback_answer (code : string) (w : W) :
  exists (b : bool) (w' : W),
    handle_callback code w = (Ok b, w') /\
    _authenticated w' = b /\
    (b = true <->
     exists t o s,
       get_access_token (self_oauth w) code = (Ok t, o) /\
       save_token (self_token_manager w) t = (Ok tt, s) /\
       _token_info w' = Some t) /\
    (b = false -> _token_info w' = None).
Proof.
  unfold handle_callback. step_world.
  destruct (get_access_token (self_oauth w) code) as [[t|e] o] eqn:Hx.
  - read_world.
    destruct (save_token (self_token_manager w) t) as [[[]|e] s] eqn:Hs.
    + exists true. eexists. split; [reflexivity|]. split; [reflexivity|].
      split; [|discriminate]. split; [|reflexivity].
      intros _. exists t, o, s. repeat split; assumption.
    + exists false. eexists. split; [reflexivity|]. split; [reflexivity|].
      split; [|reflexivity]. split; [discriminate|].
      intros (t' & o' & s' & Ht & Hs' & _). inversion Ht. subst.
      rewrite Hs in Hs'. discriminate.
  - exists false. eexists. split; [reflexivity|]. split; [reflexivity|].
    split; [|reflexivity]. split; [discriminate|].
    intros (t' & o' & s' & Ht & _). discriminate.
Qed.

(** X15.  [clear_cache] never raises and makes exactly one call,
    [clear_all_cache]; it returns [True] exactly when that call
    completes, and it leaves the flag, the held record, the token store
    and the provider client alone. *)
Theorem clear_cache_only_clears (w : W) :
  exists (b : bool) (w' : W),
    clear_cache w = (Ok b, w') /\
    b = is_ok (fst (clear_all_cache (self_cache_manager w))) /\
    self_cache_manager w' = snd (clear_all_cache (self_cache_manager w)) /\
    trace w' = (trace w ++ [EvClearAllCache])%list /\
    same_session w w' /\
    self_token_manager w' = self_token_manager w /\
    self_oauth w' = self_oauth w.
Proof.
  unfold clear_cache, same_session. step_world.
  destruct (clear_all_cache (self_cache_manager w)) as [[[]|e] c];
    eexists; eexists; (split; [reflexivity|]); repeat split.
Qed.

(** X16.  When [delete_token] raises, [disconnect] stops there: it
    returns [False], [clear_all_cache] is not called, the cache is left
    alone and the manager keeps its flag and its record. *)
Theorem disconnect_stops_at_delete (w : W) (e : exn) (s : S) :
  delete_token (self_token_manager w) = (Raise e, s) ->
  exists w',
    disconnect w = (Ok false, w') /\
    trace w' = (trace w ++ [EvDeleteToken])%list /\
    self_cache_manager w' = self_cache_manager w /\
    same_session w w'.
Proof.
  intros Hdel. unfold disconnect, same_session. step_world. rewrite Hdel.
  eexists. split; [reflexivity|]. repeat split.
Qed.

(** X17.  When [delete_token] completes and [clear_all_cache] raises,
    [disconnect] returns [False] with the persisted token already
    deleted, while the manager still holds its record and its flag: as
    long as that record is valid, [get_token] keeps returning its access
    token. *)
Theorem disconnect_half_done (w : W) (s : S) (e : exn) (c : C) :
  delete_token (self_token_manager w) = (Ok tt, s) ->
  clear_all_cache (self_cache_manager w) = (Raise e, c) ->
  exists w',
    disconnect w = (Ok false, w') /\
    self_token_manager w' = s /\
    trace w' = (trace w ++ [EvDeleteToken; EvClearAllCache])%list /\
    same_session w w' /\
    forall d x access,
      _authenticated w = true ->
      _token_info w = Some d ->
      d !! "expires_at" = Some (PyInt x) ->
      (60 <= x - clock w)%Z ->
      d !! "access_token" = Some access ->
      get_token w' = (Ok access, w').
Proof.
  intros Hdel Hclr. unfold disconnect, same_session. step_world. rewrite Hdel.
  read_world. rewrite Hclr.
  eexists. split; [reflexivity|]. read_world.
  split; [reflexivity|]. split; [now rewrite <- app_assoc|].
  split; [split; reflexivity|].
  intros d x access Hauth Hheld He Hvalid Hacc.
  assert (Hd : truthy_dict (Some d) = true)
    by exact (truthy_dict_Some d (lookup_nonempty _ _ _ He)).
  unfold get_token. step_world. read_world.
  rewrite Hauth, Hheld, Hd. cbn [negb orb].
  rewrite (is_token_expired_eq d x _ He). read_world.
  replace (x - clock w <? 60)%Z with false by (symmetry; apply Z.ltb_ge; lia).
  unfold subscript. step_world. read_world. rewrite Hheld, Hacc. reflexivity.
Qed.

(** X18.  After [disconnect] has returned [True], the manager answers
    like one that was never authenticated: [get_token] gives [None],
    [is_authenticated] gives [False], [refresh_token()] gives [None], and
    none of them calls a collaborator or changes anything. *)
Theorem disconnected_answers (w w' : W) :
  disconnect w = (Ok true, w') ->
  get_token w' = (Ok PyNone, w') /\
  is_authenticated w' = (Ok false, w') /\
  refresh_token None w' = (Ok None, w').
Proof.
  unfold disconnect. step_world.
  destruct (delete_token (self_token_manager w)) as [[[]|e] s]; [|discriminate].
  read_world.
  destruct (clear_all_cache (self_cache_manager w)) as [[[]|e] c];
    [|discriminate].
  intros Heq. inversion Heq. subst.
  repeat split.
Qed.

(** ** Construction and the saved token *)

Lemma init_runs_load_saved_token (environ : gmap string string)
    (client_id client_secret redirect_uri : option string)
    (tm : S) (cm : C) (oa : O) (now : Z) :
  credentials_given environ client_id client_secret redirect_uri = true ->
  __init__ environ client_id client_secret redirect_uri tm cm oa now =
    match _load_saved_token
            (initial_world environ client_id client_secret redirect_uri
               tm cm oa now) with
    | (Ok _, w) => Ok w
    | (Raise e, _) => Raise e
    end.
Proof.
  unfold credentials_given, __init__, initial_world. intros ->. reflexivity.
Qed.

(** Lines 91-92 and 108-109: nothing usable is stored. *)
Lemma load_saved_token_nothing (w : W) (loaded : option dict) (s : S) :
  load_token (self_token_manager w) = (Ok loaded, s) ->
  truthy_dict loaded = false ->
  _load_saved_token w = (Ok tt, with_token_manager s (log EvLoadToken w)).
Proof.
  intros Hload Hnone. unfold _load_saved_token. step_world.
  rewrite Hload, Hnone. reflexivity.
Qed.

(** Lines 94 and 102-105: a valid record is taken over as it is. *)
Lemma load_saved_token_valid (w : W) (d : dict) (e : Z) (s : S) :
  load_token (self_token_manager w) = (Ok (Some d), s) ->
  d !! "expires_at" = Some (PyInt e) ->
  (60 <= e - clock w)%Z ->
  _load_saved_token w =
    (Ok tt, authenticated_with d (with_token_manager s (log EvLoadToken w))).
Proof.
  intros Hload He Hvalid. unfold _load_saved_token. step_world.
  rewrite Hload, (truthy_dict_Some d (lookup_nonempty _ _ _ He)).
  rewrite (is_token_expired_eq d e _ He). read_world.
  replace (e - clock w <? 60)%Z with false by (symmetry; apply Z.ltb_ge; lia).
  rewrite (truthy_dict_Some d (lookup_nonempty _ _ _ He)). reflexivity.
Qed.

(** Lines 94-100: a stale record is handed to [refresh_token]. *)
Lemma load_saved_token_stale (w : W) (d : dict) (e : Z) (s : S) :
  load_token (self_token_manager w) = (Ok (Some d), s) ->
  d !! "expires_at" = Some (PyInt e) ->
  (e - clock w < 60)%Z ->
  _load_saved_token w =
    match refresh_token (Some d) (with_token_manager s (log EvLoadToken w)) with
    | (Ok (Some t), w') =>
        if truthy_dict (Some t) then (Ok tt, authenticated_with t w')
        else (Ok tt, w')
    | (Ok None, w') => (Ok tt, w')
    | (Raise _, w') => (Ok tt, w')
    end.
Proof.
  intros Hload He Hstale. unfold _load_saved_token. step_world.
  rewrite Hload, (truthy_dict_Some d (lookup_nonempty _ _ _ He)).
  rewrite (is_token_expired_eq d e _ He). read_world.
  replace (e - clock w <? 60)%Z with true by (symmetry; apply Z.ltb_lt; lia).
  destruct (refresh_token (Some d) (with_token_manager s (log EvLoadToken w)))
    as [[[t|]|x] w']; try reflexivity.
  destruct (truthy_dict (Some t)); reflexivity.
Qed.

Lemma refresh_token_returns_record (arg : option dict) (w w' : W) (d t : dict) :
  py_or_dict arg (_token_info w) = Some d ->
  refresh_token arg w = (Ok (Some t), w') ->
  exists rt o s,
    d !! "refresh_token" = Some rt /\
    refresh_access_token (self_oauth w) rt = (Ok t, o) /\
    save_token (self_token_manager w) t = (Ok tt, s).
Proof.
  intros E R.
  destruct (d !! "refresh_token") as [rt|] eqn:Hrt.
  - rewrite (refresh_token_exchange arg w d rt E Hrt) in R.
    destruct (refresh_access_token (self_oauth w) rt) as [[new_token|x] o] eqn:Hx;
      [|discriminate].
    cbn zeta in R.
    destruct (save_token (self_token_manager w) new_token) as [[[]|x] s] eqn:Hs;
      [|discriminate].
    inversion R. subst. exists rt, o, s. auto.
  - rewrite refresh_token_fail_fast in R; [discriminate|].
    rewrite E. auto.
Qed.

(** X19.  With the credentials given and nothing stored (the store
    loads [None] or an empty record), construction succeeds
    unauthenticated; loading is the only collaborator call. *)
Theorem init_nothing_stored (environ : gmap string string)
    (client_id client_secret redirect_uri : option string)
    (tm : S) (cm : C) (oa : O) (now : Z) (loaded : option dict) (tm' : S) :
  credentials_given environ client_id client_secret redirect_uri = true ->
  load_token tm = (Ok loaded, tm') ->
  truthy_dict loaded = false ->
  exists w,
    __init__ environ client_id client_secret redirect_uri tm cm oa now = Ok w /\
    _authenticated w = false /\
    _token_info w = None /\
    trace w = [EvLoadToken] /\
    self_token_manager w = tm' /\
    self_oauth w = oa.
Proof.
  intros Hcred Hload Hnone.
  rewrite (init_runs_load_saved_token _ _ _ _ _ _ _ _ Hcred).
  match goal with
  | |- context [_load_saved_token ?w0] =>
      rewrite (load_saved_token_nothing w0 loaded tm' Hload Hnone)
  end.
  eexists. split; [reflexivity|]. repeat split.
Qed.

(** X20.  With a valid record stored, construction succeeds
    authenticated with that record; the provider is not contacted and
    nothing is saved. *)
Theorem init_valid_record_stored (environ : gmap string string)
    (client_id client_secret redirect_uri : option string)
    (tm : S) (cm : C) (oa : O) (now : Z) (d : dict) (e : Z) (tm' : S) :
  credentials_given environ client_id client_secret redirect_uri = true ->
  load_token tm = (Ok (Some d), tm') ->
  d !! "expires_at" = Some (PyInt e) ->
  (60 <= e - now)%Z ->
  exists w,
    __init__ environ client_id client_secret redirect_uri tm cm oa now = Ok w /\
    _authenticated w = true /\
    _token_info w = Some d /\
    trace w = [EvLoadToken] /\
    self_token_manager w = tm' /\
    self_oauth w = oa.
Proof.
  intros Hcred Hload He Hvalid.
  rewrite (init_runs_load_saved_token _ _ _ _ _ _ _ _ Hcred).
  match goal with
  | |- context [_load_saved_token ?w0] =>
      rewrite (load_saved_token_valid w0 d e tm' Hload He Hvalid)
  end.
  eexists. split; [reflexivity|]. repeat split.
Qed.

(** X21.  With a stale record stored whose refresh token the provider
    renews, and the save completing, construction succeeds authenticated
    with the renewed record: load, exchange, save, in that order. *)
Theorem init_stale_record_refreshed (environ : gmap string string)
    (client_id client_secret redirect_uri : option string)
    (tm : S) (cm : C) (oa : O) (now : Z) (d : dict) (e : Z) (tm' : S)
    (rt : pyval) (new_token : dict) (o : O) (s : S) :
  credentials_given environ client_id client_secret redirect_uri = true ->
  load_token tm = (Ok (Some d), tm') ->
  d !! "expires_at" = Some (PyInt e) ->
  (e - now < 60)%Z ->
  d !! "refresh_token" = Some rt ->
  refresh_access_token oa rt = (Ok new_token, o) ->
  save_token tm' new_token = (Ok tt, s) ->
  exists w,
    __init__ environ client_id client_secret redirect_uri tm cm oa now = Ok w /\
    _authenticated w = true /\
    _token_info w = Some new_token /\
    trace w =
      [EvLoadToken; EvRefreshAccessToken rt; EvSaveToken new_token] /\
    self_token_manager w = s /\
    self_oauth w = o.
Proof.
  intros Hcred Hload He Hstale Hrt Hx Hs.
  rewrite (init_runs_load_saved_token _ _ _ _ _ _ _ _ Hcred).
  match goal with
  | |- context [_load_saved_token ?w0] =>
      rewrite (load_saved_token_stale w0 d e tm' Hload He Hstale)
  end.
  match goal with
  | |- context [refresh_token (Some d) ?w1] =>
      assert (E : py_or_dict (Some d) (_token_info w1) = Some d)
        by exact (py_or_dict_given d _ (lookup_nonempty _ _ _ Hrt));
      rewrite (refresh_token_exchange (Some d) w1 d rt E Hrt)
  end.
  unfold initial_world. read_world. rewrite Hx. cbn zeta. rewrite Hs.
  destruct (truthy_dict (Some new_token));
    eexists; (split; [reflexivity|]); repeat split.
Qed.

(** X22.  With a stale record stored that cannot be refreshed (no
    refresh token, the provider refuses, or the save raises),
    construction still succeeds, unauthenticated and holding nothing. *)
Theorem init_stale_record_dropped (environ : gmap string string)
    (client_id client_secret redirect_uri : option string)
    (tm : S) (cm : C) (oa : O) (now : Z) (d : dict) (e : Z) (tm' : S) :
  credentials_given environ client_id client_secret redirect_uri = true ->
  load_token tm = (Ok (Some d), tm') ->
  d !! "expires_at" = Some (PyInt e) ->
  (e - now < 60)%Z ->
  ~ (exists rt new_token o s,
       d !! "refresh_token" = Some rt /\
       refresh_access_token oa rt = (Ok new_token, o) /\
       save_token tm' new_token = (Ok tt, s)) ->
  exists w,
    __init__ environ client_id client_secret redirect_uri tm cm oa now = Ok w /\
    _authenticated w = false /\
    _token_info w = None.
Proof.
  intros Hcred Hload He Hstale Hno.
  rewrite (init_runs_load_saved_token _ _ _ _ _ _ _ _ Hcred).
  match goal with
  | |- context [_load_saved_token ?w0] =>
      rewrite (load_saved_token_stale w0 d e tm' Hload He Hstale)
  end.
  match goal with
  | |- context [refresh_token (Some d) ?w1] =>
      assert (E : py_or_dict (Some d) (_token_info w1) = Some d)
        by exact (py_or_dict_given d _ (lookup_nonempty _ _ _ He));
      destruct (refresh_token_outcome (Some d) w1) as [[w' R] | [t [w' R]]];
      [| destruct (refresh_token_returns_record _ _ _ d t E R)
           as (rt & o & s & Hrt & Hx & Hs)]
  end.
  - rewrite R. eexists. split; [reflexivity|]. split; reflexivity.
  - exfalso. apply Hno. exists rt, t, o, s. auto.
Qed.

(** X23.  The expiry check of [_load_saved_token] is outside its [try]:
    a stored record without ["expires_at"] makes construction raise
    [KeyError]. *)
Theorem init_malformed_record_raises (environ : gmap string string)
    (client_id client_secret redirect_uri : option string)
    (tm : S) (cm : C) (oa : O) (now : Z) (d : dict) (tm' : S) :
  credentials_given environ client_id client_secret redirect_uri = true ->
  load_token tm = (Ok (Some d), tm') ->
  d <> ∅ ->
  d !! "expires_at" = None ->
  __init__ environ client_id client_secret redirect_uri tm cm oa now =
    Raise (KeyError "expires_at").
Proof.
  intros Hcred Hload Hd He.
  rewrite (init_runs_load_saved_token _ _ _ _ _ _ _ _ Hcred).
  unfold _load_saved_token, _is_token_expired, time_time, subscript.
  step_world. unfold initial_world. read_world.
  rewrite Hload, (truthy_dict_Some d Hd), He. reflexivity.
Qed.

(** ** What an operation calls and what it leaves alone *)

Lemma call_shape_no_load (evs : list event) :
  call_shape evs -> ~ In EvLoadToken evs.
Proof. intros Hs; inversion Hs; cbn; intuition discriminate. Qed.

Lemma call_shape_saves (evs : list event) : call_shape evs -> saves evs <= 1.
Proof. intros Hs; inversion Hs; cbn; lia. Qed.

Lemma same_identity_refl (w : W) : same_identity w w.
Proof. repeat split. Qed.

(** The effect of [refresh_token] outside the flag and the held record. *)
Lemma refresh_token_effect (arg : option dict) (w : W) :
  same_identity w (snd (refresh_token arg w)) /\
  self_cache_manager (snd (refresh_token arg w)) = self_cache_manager w /\
  exists evs,
    trace (snd (refresh_token arg w)) = (trace w ++ evs)%list /\
    call_shape evs.
Proof.
  destruct (py_or_dict arg (_token_info w)) as [d|] eqn:E.
  - destruct (d !! "refresh_token") as [rt|] eqn:Hrt.
    + rewrite (refresh_token_exchange arg w d rt E Hrt).
      destruct (refresh_access_token (self_oauth w) rt) as [[new_token|x] o].
      * cbn zeta.
        destruct (save_token (self_token_manager w) new_token) as [[[]|x] s];
          cbn [snd]; unfold authenticated_with, unauthenticated, same_identity;
          read_world; (split; [repeat split|]); (split; [reflexivity|]);
          exists [EvRefreshAccessToken rt; EvSaveToken new_token];
          (split; [now rewrite <- app_assoc | constructor]).
      * cbn [snd]. unfold unauthenticated, same_identity. read_world.
        split; [repeat split|]. split; [reflexivity|].
        exists [EvRefreshAccessToken rt]. split; [reflexivity | constructor].
    + rewrite refresh_token_fail_fast by (rewrite E; auto).
      cbn [snd]. unfold unauthenticated, same_identity. read_world.
      split; [repeat split|]. split; [reflexivity|].
      exists []. split; [symmetry; apply app_nil_r | constructor].
  - rewrite refresh_token_fail_fast by now rewrite E.
    cbn [snd]. unfold unauthenticated, same_identity. read_world.
    split; [repeat split|]. split; [reflexivity|].
    exists []. split; [symmetry; apply app_nil_r | constructor].
Qed.

(** [get_token] ends in the world it started in, or in the world
    [refresh_token()] left, with the held record assigned once more. *)
Lemma get_token_world (w : W) :
  snd (get_token w) = w \/
  exists r, snd (get_token w) = with_token_info r (snd (refresh_token None w)).
Proof.
  unfold get_token. step_world.
  destruct (negb (_authenticated w) || negb (truthy_dict (_token_info w)));
    [left; reflexivity|].
  destruct (is_token_expired_state (_token_info w) w) as [[[|]|e] E]; rewrite E.
  - right.
    destruct (refresh_token_never_raises None w) as (r & w1 & R). rewrite R.
    exists r. cbn [snd].
    destruct (negb (truthy_dict r)); [reflexivity|].
    match goal with
    | |- context [subscript ?d ?k ?w0] =>
        destruct (subscript_state d k w0) as [x Hx]; rewrite Hx
    end.
    reflexivity.
  - left. destruct (subscript_state (_token_info w) "access_token" w) as [x Hx].
    rewrite Hx. reflexivity.
  - left. reflexivity.
Qed.

Lemma is_authenticated_world (w : W) :
  snd (is_authenticated w) = w \/
  exists r,
    snd (is_authenticated w) = with_token_info r (snd (refresh_token None w)).
Proof.
  unfold is_authenticated. step_world.
  destruct (_authenticated w && truthy_dict (_token_info w));
    [|left; reflexivity].
  destruct (is_token_expired_state (_token_info w) w) as [[[|]|e] E]; rewrite E.
  - right. cbn [negb].
    destruct (refresh_token_never_raises None w) as (r & w1 & R). rewrite R.
    exists r. reflexivity.
  - left. reflexivity.
  - left. reflexivity.
Qed.

Lemma get_spotify_client_world (w : W) :
  snd (get_spotify_client w) = snd (get_token w).
Proof.
  unfold get_spotify_client. step_world.
  destruct (get_token w) as [[v|e] w1]; [|reflexivity].
  destruct (negb (truthy_val v)); reflexivity.
Qed.

(** What a world reached through [refresh_token()] and one more
    assignment of the held record keeps of the starting world. *)
Lemma after_refresh_effect (w w' : W) :
  w' = w \/ (exists r, w' = with_token_info r (snd (refresh_token None w))) ->
  same_identity w w' /\
  self_cache_manager w' = self_cache_manager w /\
  exists evs, trace w' = (trace w ++ evs)%list /\ call_shape evs.
Proof.
  intros [-> | [r ->]].
  - split; [apply same_identity_refl|]. split; [reflexivity|].
    exists []. split; [symmetry; apply app_nil_r | constructor].
  - unfold same_identity. read_world. apply refresh_token_effect.
Qed.

(** Every operation keeps the identity and the clock, extends the trace
    by one of the call shapes, and leaves alone what [untouched] lists. *)
Lemma after_effect (op : operation) (w : W) :
  same_identity w (after op w) /\
  untouched op w (after op w) /\
  exists evs, trace (after op w) = (trace w ++ evs)%list /\ call_shape evs.
Proof.
  destruct op as [| code | arg | | | | |]; cbn [after untouched].
  - unfold get_auth_url, same_identity, same_session. step_world.
    destruct (get_authorize_url (self_oauth w)) as [[u|e] o]; cbn [snd];
      read_world; (split; [repeat split|]); (split; [repeat split|]);
      exists [EvAuthorizeUrl]; (split; [reflexivity | constructor]).
  - unfold handle_callback, same_identity. step_world.
    destruct (get_access_token (self_oauth w) code) as [[t|e] o].
    + read_world.
      destruct (save_token (self_token_manager w) t) as [[[]|e] s]; cbn [snd];
        read_world; (split; [repeat split|]); (split; [reflexivity|]);
        exists [EvGetAccessToken code; EvSaveToken t];
        (split; [now rewrite <- app_assoc | constructor]).
    + cbn [snd]. read_world. split; [repeat split|]. split; [reflexivity|].
      exists [EvGetAccessToken code]. split; [reflexivity | constructor].
  - destruct (refresh_token_effect arg w) as (Hid & Hcache & Htrace). auto.
  - destruct (after_refresh_effect w _ (get_token_world w))
      as (Hid & Hcache & Htrace). auto.
  - rewrite get_spotify_client_world.
    destruct (after_refresh_effect w _ (get_token_world w))
      as (Hid & Hcache & Htrace). auto.
  - destruct (after_refresh_effect w _ (is_authenticated_world w))
      as (Hid & Hcache & Htrace). auto.
  - unfold disconnect, same_identity. step_world.
    destruct (delete_token (self_token_manager w)) as [[[]|e] s].
    + read_world.
      destruct (clear_all_cache (self_cache_manager w)) as [[[]|e] c];
        cbn [snd]; read_world; (split; [repeat split|]);
        (split; [reflexivity|]);
        exists [EvDeleteToken; EvClearAllCache];
        (split; [now rewrite <- app_assoc | constructor]).
    + cbn [snd]. read_world. split; [repeat split|]. split; [reflexivity|].
      exists [EvDeleteToken]. split; [reflexivity | constructor].
  - unfold clear_cache, same_identity, same_session. step_world.
    destruct (clear_all_cache (self_cache_manager w)) as [[[]|e] c]; cbn [snd];
      read_world; (split; [repeat split|]); (split; [repeat split|]);
      exists [EvClearAllCache]; (split; [reflexivity | constructor]).
Qed.

(** X24.  Every public operation extends the trace of collaborator
    calls by one of nine shapes: nothing, the authorize URL, a code
    exchange alone or followed by a save, a refresh exchange alone or
    followed by a save, a delete alone or followed by a cache clear, or a
    cache clear.  So an operation saves at most once, and only right
    after an exchange; and none loads the stored token again. *)
Theorem operation_call_shape (op : operation) (w : W) :
  exists evs,
    trace (after op w) = (trace w ++ evs)%list /\
    call_shape evs /\
    saves evs <= 1 /\
    ~ In EvLoadToken evs.
Proof.
  destruct (after_effect op w) as (_ & _ & evs & Htrace & Hshape).
  exists evs. split; [assumption|]. split; [assumption|].
  split; [now apply call_shape_saves | now apply call_shape_no_load].
Qed.

(** X25.  No public operation changes the client identity or the clock.
    [get_auth_url] and [clear_cache] leave the session and the token
    store alone; [disconnect] and [clear_cache] leave the provider client
    alone; every other operation leaves the cache alone. *)
Theorem operation_frame (op : operation) (w : W) :
  same_identity w (after op w) /\ untouched op w (after op w).
Proof.
  destruct (after_effect op w) as (Hid & Hun & _). split; assumption.
Qed.

(** ** Every constructed manager *)

Lemma load_saved_token_effect (w : W) :
  same_identity w (snd (_load_saved_token w)) /\
  exists evs,
    trace (snd (_load_saved_token w)) = (trace w ++ EvLoadToken :: evs)%list /\
    call_shape evs.
Proof.
  unfold _load_saved_token. step_world.
  destruct (load_token (self_token_manager w)) as [[loaded|e] s].
  - destruct (truthy_dict loaded) eqn:Hloaded.
    + match goal with
      | |- context [_is_token_expired loaded ?w0] =>
          destruct (is_token_expired_state loaded w0) as [[[|]|e] E]; rewrite E
      end.
      * match goal with
        | |- context [refresh_token loaded ?w0] =>
            destruct (refresh_token_effect loaded w0)
              as (Hid & _ & evs & Htrace & Hshape);
            destruct (refresh_token loaded w0) as [[r|e] w1]
        end.
        -- cbn [snd] in *. unfold same_identity in *. read_world.
           cbn beta iota zeta.
           destruct (truthy_dict r); cbn [snd]; read_world;
             (split; [exact Hid|]); exists evs;
             (split; [rewrite Htrace; now rewrite <- app_assoc | assumption]).
        -- cbn [snd] in *. unfold same_identity in *. read_world.
           cbn. split; [exact Hid|]. exists evs.
           split; [rewrite Htrace; now rewrite <- app_assoc | assumption].
      * rewrite Hloaded. cbn [snd]. unfold same_identity. read_world.
        split; [repeat split|]. exists []. split; [reflexivity | constructor].
      * cbn [snd]. unfold same_identity. read_world.
        split; [repeat split|]. exists []. split; [reflexivity | constructor].
    + cbn [snd]. unfold same_identity. read_world.
      split; [repeat split|]. exists []. split; [reflexivity | constructor].
  - cbn [snd]. unfold same_identity. read_world.
    split; [repeat split|]. exists []. split; [reflexivity | constructor].
Qed.

Lemma init_inversion (environ : gmap string string)
    (client_id client_secret redirect_uri : option string)
    (tm : S) (cm : C) (oa : O) (now : Z) (w : W) :
  __init__ environ client_id client_secret redirect_uri tm cm oa now = Ok w ->
  credentials_given environ client_id client_secret redirect_uri = true /\
  w = snd (_load_saved_token
             (initial_world environ client_id client_secret redirect_uri
                tm cm oa now)).
Proof.
  intros Hinit.
  destruct (credentials_given environ client_id client_secret redirect_uri)
    eqn:Hcred.
  - split; [reflexivity|].
    rewrite (init_runs_load_saved_token _ _ _ _ _ _ _ _ Hcred) in Hinit.
    destruct (_load_saved_token _) as [[[]|e] w1]; [|discriminate].
    inversion Hinit. reflexivity.
  - unfold __init__ in Hinit. unfold credentials_given in Hcred.
    rewrite Hcred in Hinit. discriminate.
Qed.

Lemma py_all_three (a b c : option string) :
  py_all [a; b; c] = true ->
  truthy_str a = true /\ truthy_str b = true /\ truthy_str c = true.
Proof.
  unfold py_all. cbn [forallb].
  destruct (truthy_str a), (truthy_str b), (truthy_str c); cbn;
    intros E; try discriminate; auto.
Qed.

(** X26.  A manager that construction returns has a non-empty client
    id, client secret and redirect URI.  Each is the argument when that
    is non-empty, else the environment variable, and for the redirect
    URI, when the variable is not set either, the default. *)
Theorem init_identity (environ : gmap string string)
    (client_id client_secret redirect_uri : option string)
    (tm : S) (cm : C) (oa : O) (now : Z) (w : W) :
  __init__ environ client_id client_secret redirect_uri tm cm oa now = Ok w ->
  (truthy_str (self_client_id w) = true /\
   truthy_str (self_client_secret w) = true /\
   truthy_str (self_redirect_uri w) = true) /\
  (self_client_id w =
     if truthy_str client_id then client_id
     else environ !! "SPOTIFY_CLIENT_ID") /\
  (self_client_secret w =
     if truthy_str client_secret then client_secret
     else environ !! "SPOTIFY_CLIENT_SECRET") /\
  (self_redirect_uri w =
     if truthy_str redirect_uri then redirect_uri
     else Some (default default_redirect_uri
                  (environ !! "SPOTIFY_REDIRECT_URI"))).
Proof.
  intros Hinit. apply init_inversion in Hinit. destruct Hinit as [Hcred ->].
  match goal with
  | |- context [_load_saved_token ?w0] =>
      destruct (load_saved_token_effect w0) as [(Hid & Hsec & Huri & _) _]
  end.
  rewrite Hid, Hsec, Huri. unfold initial_world. read_world.
  apply py_all_three in Hcred. split; [exact Hcred|].
  unfold py_or_str, os_getenv.
  repeat split.
  - destruct (truthy_str client_id); [reflexivity|].
    now destruct (environ !! "SPOTIFY_CLIENT_ID").
  - destruct (truthy_str client_secret); [reflexivity|].
    now destruct (environ !! "SPOTIFY_CLIENT_SECRET").
  - destruct (truthy_str redirect_uri); [reflexivity|].
    now destruct (environ !! "SPOTIFY_REDIRECT_URI").
Qed.

(** X27.  In every world a manager can be in (after construction, any
    number of public operations and any passing of time) the client id,
    the client secret and the redirect URI are non-empty, and the stored
    token was loaded exactly once, as the first collaborator call: no
    operation reads the token store again. *)
Theorem reachable_identity_and_single_load (w : W) :
  reachable w ->
  truthy_str (self_client_id w) = true /\
  truthy_str (self_client_secret w) = true /\
  truthy_str (self_redirect_uri w) = true /\
  exists evs, trace w = EvLoadToken :: evs /\ ~ In EvLoadToken evs.
Proof.
  induction 1 as [? ? ? ? ? ? ? ? w E | op w _ IH | now w _ IH].
  - apply init_inversion in E. destruct E as [Hcred ->].
    match goal with
    | |- context [_load_saved_token ?w0] =>
        destruct (load_saved_token_effect w0)
          as [(Hid & Hsec & Huri & _) (evs & Htrace & Hshape)]
    end.
    rewrite Hid, Hsec, Huri, Htrace. unfold initial_world. read_world.
    apply py_all_three in Hcred. destruct Hcred as (? & ? & ?).
    repeat (split; [assumption|]).
    exists evs. split; [reflexivity | now apply call_shape_no_load].
  - destruct IH as (Hid & Hsec & Huri & evs0 & Htrace0 & Hno0).
    destruct (after_effect op w)
      as ((Eid & Esec & Euri & _) & _ & evs & Htrace & Hshape).
    rewrite Eid, Esec, Euri, Htrace, Htrace0.
    repeat (split; [assumption|]).
    exists (evs0 ++ evs)%list. split; [reflexivity|].
    intros Hin. apply in_app_or in Hin. destruct Hin as [Hin | Hin].
    + now apply Hno0.
    + now apply (call_shape_no_load evs Hshape).
  - exact IH.
Qed.

(** ** Operations in sequence *)

(** X28.  After a callback whose code the provider accepts and whose
    record is saved, [get_token] returns the access token of the issued
    record, as long as that record is valid, without calling any
    collaborator. *)
Theorem handle_callback_then_get_token (code : string) (w : W) (t : dict)
    (o : O) (s : S) (e : Z) (access : pyval) :
  get_access_token (self_oauth w) code = (Ok t, o) ->
  save_token (self_token_manager w) t = (Ok tt, s) ->
  t !! "expires_at" = Some (PyInt e) ->
  t !! "access_token" = Some access ->
  exists w',
    handle_callback code w = (Ok true, w') /\
    forall now, (60 <= e - now)%Z ->
      get_token (with_clock now w') = (Ok access, with_clock now w').
Proof.
  intros Hx Hs He Hacc.
  eexists. split.
  - unfold handle_callback. step_world. rewrite Hx. read_world. rewrite Hs.
    reflexivity.
  - intros now Hvalid. unfold get_token. step_world. read_world.
    rewrite (truthy_dict_Some t (lookup_nonempty _ _ _ He)). cbn [negb orb].
    rewrite (is_token_expired_eq t e _ He). read_world.
    replace (e - now <? 60)%Z with false by (symmetry; apply Z.ltb_ge; lia).
    unfold subscript. step_world. read_world. rewrite Hacc. reflexivity.
Qed.

(** X29.  After [get_token] has refreshed a stale record, a second call,
    made while the refreshed record is valid, returns the same access
    token and calls no collaborator: the refresh is not repeated. *)
Theorem get_token_twice (w : W) (d : dict) (e : Z) (rt : pyval)
    (new_token : dict) (o : O) (s : S) (access : pyval) (e' : Z) :
  _authenticated w = true ->
  _token_info w = Some d ->
  d !! "expires_at" = Some (PyInt e) ->
  (e - clock w < 60)%Z ->
  d !! "refresh_token" = Some rt ->
  refresh_access_token (self_oauth w) rt = (Ok new_token, o) ->
  save_token (self_token_manager w) new_token = (Ok tt, s) ->
  new_token !! "access_token" = Some access ->
  new_token !! "expires_at" = Some (PyInt e') ->
  exists w',
    get_token w = (Ok access, w') /\
    forall now, (60 <= e' - now)%Z ->
      get_token (with_clock now w') = (Ok access, with_clock now w').
Proof.
  intros Hauth Hheld He Hstale Hrt Hx Hs Hacc He'.
  assert (Hrefresh := refresh_token_exchange None w d rt).
  rewrite py_or_dict_default, Hx in Hrefresh. cbn zeta in Hrefresh.
  rewrite Hs in Hrefresh. specialize (Hrefresh Hheld Hrt).
  assert (Hnew : truthy_dict (Some new_token) = true)
    by exact (truthy_dict_Some new_token (lookup_nonempty _ _ _ Hacc)).
  eexists. split.
  - unfold get_token. step_world. rewrite Hauth, Hheld.
    rewrite (truthy_dict_Some d (lookup_nonempty _ _ _ He)). cbn [negb orb].
    rewrite (is_token_expired_eq d e w He).
    replace (e - clock w <? 60)%Z with true by (symmetry; apply Z.ltb_lt; lia).
    rewrite Hrefresh, Hnew. cbn [negb].
    unfold subscript, authenticated_with. step_world. read_world.
    rewrite Hacc. reflexivity.
  - intros now Hvalid. unfold get_token. step_world. read_world.
    rewrite Hnew. cbn [negb orb].
    rewrite (is_token_expired_eq new_token e' _ He'). read_world.
    replace (e' - now <? 60)%Z with false by (symmetry; apply Z.ltb_ge; lia).
    unfold subscript. step_world. read_world. rewrite Hacc. reflexivity.
Qed.

End Behaviour.

(** ** The further theorems at concrete inputs *)

Lemma refresh_token_uses_argument_witness :
  exists w',
    refresh_token (Some held_record) (fresh_world true)
      = (Ok (Some (token_record "A2" "R2" 8200)), w') /\
    _authenticated w' = true /\
    _token_info w' = Some (token_record "A2" "R2" 8200) /\
    trace w' =
      (trace (fresh_world true) ++
       [EvRefreshAccessToken (PyStr "R0");
        EvSaveToken (token_record "A2" "R2" 8200)])%list /\
    self_token_manager w' = TokenFile (Some (token_record "A2" "R2" 8200)) true /\
    self_oauth w' = sample_provider.
Proof.
  apply (refresh_token_uses_argument held_record (fresh_world true)
           (PyStr "R0")); reflexivity.
Defined.

Lemma refresh_token_save_raises_witness :
  exists w',
    refresh_token None (stale_world false) = (Ok None, w') /\
    _authenticated w' = false /\
    _token_info w' = None /\
    trace w' =
      (trace (stale_world false) ++
       [EvRefreshAccessToken (PyStr "R0");
        EvSaveToken (token_record "A2" "R2" 8200)])%list /\
    self_token_manager w' = TokenFile (Some held_record) false.
Proof.
  apply (refresh_token_save_raises None (stale_world false) held_record
           (PyStr "R0") (token_record "A2" "R2" 8200) sample_provider
           (OSError "read-only")); reflexivity.
Defined.

Lemma unauthenticated_answers_witness :
  get_token (fresh_world true) = (Ok PyNone, fresh_world true) /\
  get_spotify_client (fresh_world true) = (Ok None, fresh_world true) /\
  is_authenticated (fresh_world true) = (Ok false, fresh_world true).
Proof. apply unauthenticated_answers. left. reflexivity. Defined.

Lemma valid_record_is_used_witness :
  get_token (valid_world true) = (Ok (PyStr "A0"), valid_world true) /\
  is_authenticated (valid_world true) = (Ok true, valid_world true).
Proof.
  apply (valid_record_is_used (valid_world true) held_record 1000);
    try reflexivity.
  vm_compute. discriminate.
Defined.

Lemma stale_record_not_refreshed_witness :
  exists w',
    get_token revoked_world = (Ok PyNone, w') /\
    is_authenticated revoked_world = (Ok false, w') /\
    _authenticated w' = false /\
    _token_info w' = None.
Proof.
  apply (stale_record_not_refreshed revoked_world
           (token_record "A0" "R9" 1000) 1000); try reflexivity.
  intros (rt & new_token & o & s & Hrt & Hx & _).
  vm_compute in Hrt. inversion Hrt. subst rt.
  vm_compute in Hx. discriminate.
Defined.

Lemma get_token_returns_held_access_token_witness :
  _authenticated (snd (get_token (stale_world true))) = true /\
  exists d,
    _token_info (snd (get_token (stale_world true))) = Some d /\
    d !! "access_token" = Some (PyStr "A2").
Proof.
  apply (get_token_returns_held_access_token (stale_world true)).
  - reflexivity.
  - discriminate.
Defined.

Lemma get_spotify_client_bound_to_held_token_witness :
  truthy_val (auth {| auth := PyStr "A2" |}) = true /\
  _authenticated (snd (get_spotify_client (stale_world true))) = true /\
  exists d,
    _token_info (snd (get_spotify_client (stale_world true))) = Some d /\
    d !! "access_token" = Some (auth {| auth := PyStr "A2" |}).
Proof.
  apply (get_spotify_client_bound_to_held_token (stale_world true)).
  reflexivity.
Defined.

Lemma is_authenticated_answer_is_flag_witness :
  _authenticated (snd (is_authenticated revoked_world)) = false /\
  (false = false -> _token_info (snd (is_authenticated revoked_world)) = None).
Proof.
  apply (is_authenticated_answer_is_flag revoked_world).
  - reflexivity.
  - vm_compute. discriminate.
  - reflexivity.
Defined.

Lemma missing_expires_at_raises_witness :
  get_token (holding_world {["access_token" := PyStr "A0"]})
    = (Raise (KeyError "expires_at"),
       holding_world {["access_token" := PyStr "A0"]}) /\
  get_spotify_client (holding_world {["access_token" := PyStr "A0"]})
    = (Raise (KeyError "expires_at"),
       holding_world {["access_token" := PyStr "A0"]}) /\
  is_authenticated (holding_world {["access_token" := PyStr "A0"]})
    = (Raise (KeyError "expires_at"),
       holding_world {["access_token" := PyStr "A0"]}).
Proof.
  apply (missing_expires_at_raises _ {["access_token" := PyStr "A0"]});
    try reflexivity.
  vm_compute. discriminate.
Defined.

Lemma non_integer_expires_at_raises_witness :
  get_token (holding_world {["expires_at" := PyStr "soon"]})
    = (Raise TypeError, holding_world {["expires_at" := PyStr "soon"]}) /\
  is_authenticated (holding_world {["expires_at" := PyStr "soon"]})
    = (Raise TypeError, holding_world {["expires_at" := PyStr "soon"]}).
Proof.
  apply (non_integer_expires_at_raises _ {["expires_at" := PyStr "soon"]}
           (PyStr "soon")); try reflexivity.
  discriminate.
Defined.

Lemma missing_access_token_raises_witness :
  get_token (holding_world {["expires_at" := PyInt 1000]})
    = (Raise (KeyError "access_token"),
       holding_world {["expires_at" := PyInt 1000]}) /\
  is_authenticated (holding_world {["expires_at" := PyInt 1000]})
    = (Ok true, holding_world {["expires_at" := PyInt 1000]}).
Proof.
  apply (missing_access_token_raises _ {["expires_at" := PyInt 1000]} 1000);
    try reflexivity.
  vm_compute. discriminate.
Defined.

Lemma disconnect_stops_at_delete_witness :
  exists w',
    disconnect (stale_world false) = (Ok false, w') /\
    trace w' = (trace (stale_world false) ++ [EvDeleteToken])%list /\
    self_cache_manager w' = self_cache_manager (stale_world false) /\
    same_session (stale_world false) w'.
Proof.
  apply (disconnect_stops_at_delete (stale_world false) (OSError "read-only")
           (TokenFile (Some held_record) false)).
  reflexivity.
Defined.

Lemma disconnect_half_done_witness :
  exists w',
    disconnect (valid_world false) = (Ok false, w') /\
    self_token_manager w' = TokenFile None true /\
    trace w' =
      (trace (valid_world false) ++ [EvDeleteToken; EvClearAllCache])%list /\
    same_session (valid_world false) w' /\
    forall d x access,
      _authenticated (valid_world false) = true ->
      _token_info (valid_world false) = Some d ->
      d !! "expires_at" = Some (PyInt x) ->
      (60 <= x - clock (valid_world false))%Z ->
      d !! "access_token" = Some access ->
      get_token w' = (Ok access, w').
Proof.
  apply (disconnect_half_done (valid_world false) (TokenFile None true)
           (OSError "read-only") (CacheDir ["top_tracks.json"] false));
    reflexivity.
Defined.

Lemma disconnected_answers_witness :
  get_token (snd (disconnect (stale_world true)))
    = (Ok PyNone, snd (disconnect (stale_world true))) /\
  is_authenticated (snd (disconnect (stale_world true)))
    = (Ok false, snd (disconnect (stale_world true))) /\
  refresh_token None (snd (disconnect (stale_world true)))
    = (Ok None, snd (disconnect (stale_world true))).
Proof. apply (disconnected_answers (stale_world true)). reflexivity. Defined.

Lemma init_nothing_stored_witness :
  exists w,
    __init__ ∅ (Some "id") (Some "secret") None
      (TokenFile (Some ∅) true) (CacheDir [] true) sample_provider 1000 = Ok w /\
    _authenticated w = false /\
    _token_info w = None /\
    trace w = [EvLoadToken] /\
    self_token_manager w = TokenFile (Some ∅) true /\
    self_oauth w = sample_provider.
Proof.
  apply (init_nothing_stored ∅ (Some "id") (Some "secret") None
           (TokenFile (Some ∅) true) (CacheDir [] true) sample_provider 1000
           (Some ∅)); reflexivity.
Defined.

Lemma init_valid_record_stored_witness :
  exists w,
    __init__ ∅ (Some "id") (Some "secret") None
      (TokenFile (Some held_record) true) (CacheDir [] true)
      sample_provider 0 = Ok w /\
    _authenticated w = true /\
    _token_info w = Some held_record /\
    trace w = [EvLoadToken] /\
    self_token_manager w = TokenFile (Some held_record) true /\
    self_oauth w = sample_provider.
Proof.
  apply (init_valid_record_stored ∅ (Some "id") (Some "secret") None
           (TokenFile (Some held_record) true) (CacheDir [] true)
           sample_provider 0 held_record 1000); try reflexivity.
  vm_compute. discriminate.
Defined.

Lemma init_stale_record_refreshed_witness :
  exists w,
    __init__ ∅ (Some "id") (Some "secret") None
      (TokenFile (Some held_record) true) (CacheDir [] true)
      sample_provider 1000 = Ok w /\
    _authenticated w = true /\
    _token_info w = Some (token_record "A2" "R2" 8200) /\
    trace w =
      [EvLoadToken; EvRefreshAccessToken (PyStr "R0");
       EvSaveToken (token_record "A2" "R2" 8200)] /\
    self_token_manager w = TokenFile (Some (token_record "A2" "R2" 8200)) true /\
    self_oauth w = sample_provider.
Proof.
  apply (init_stale_record_refreshed ∅ (Some "id") (Some "secret") None
           (TokenFile (Some held_record) true) (CacheDir [] true)
           sample_provider 1000 held_record 1000
           (TokenFile (Some held_record) true) (PyStr "R0"));
    reflexivity.
Defined.

Lemma init_stale_record_dropped_witness :
  exists w,
    __init__ ∅ (Some "id") (Some "secret") None
      (TokenFile (Some (token_without_refresh "A0" 1000)) true)
      (CacheDir [] true) sample_provider 1000 = Ok w /\
    _authenticated w = false /\
    _token_info w = None.
Proof.
  apply (init_stale_record_dropped ∅ (Some "id") (Some "secret") None
           (TokenFile (Some (token_without_refresh "A0" 1000)) true)
           (CacheDir [] true) sample_provider 1000
           (token_without_refresh "A0" 1000) 1000
           (TokenFile (Some (token_without_refresh "A0" 1000)) true));
    try reflexivity.
  intros (rt & new_token & o & s & Hrt & _).
  vm_compute in Hrt. discriminate.
Defined.

Lemma init_malformed_record_raises_witness :
  __init__ ∅ (Some "id") (Some "secret") None
    (TokenFile (Some {["access_token" := PyStr "A0"]}) true)
    (CacheDir [] true) sample_provider 1000 =
  Raise (KeyError "expires_at").
Proof.
  apply (init_malformed_record_raises ∅ (Some "id") (Some "secret") None
           (TokenFile (Some {["access_token" := PyStr "A0"]}) true)
           (CacheDir [] true) sample_provider 1000
           {["access_token" := PyStr "A0"]}
           (TokenFile (Some {["access_token" := PyStr "A0"]}) true));
    try reflexivity.
  vm_compute. discriminate.
Defined.

Lemma init_identity_witness :
  (truthy_str (self_client_id constructed_world) = true /\
   truthy_str (self_client_secret constructed_world) = true /\
   truthy_str (self_redirect_uri constructed_world) = true) /\
  (self_client_id constructed_world =
     if truthy_str (Some "id") then Some "id"
     else (∅ : gmap string string) !! "SPOTIFY_CLIENT_ID") /\
  (self_client_secret constructed_world =
     if truthy_str (Some "secret") then Some "secret"
     else (∅ : gmap string string) !! "SPOTIFY_CLIENT_SECRET") /\
  (self_redirect_uri constructed_world =
     if truthy_str None then None
     else Some (default default_redirect_uri
                  ((∅ : gmap string string) !! "SPOTIFY_REDIRECT_URI"))).
Proof.
  apply (init_identity ∅ (Some "id") (Some "secret") None
           (TokenFile None true) (CacheDir [] true) sample_provider 1000
           constructed_world).
  reflexivity.
Defined.

Lemma reachable_identity_and_single_load_witness :
  truthy_str (self_client_id (after GetToken constructed_world)) = true /\
  truthy_str (self_client_secret (after GetToken constructed_world)) = true /\
  truthy_str (self_redirect_uri (after GetToken constructed_world)) = true /\
  exists evs,
    trace (after GetToken constructed_world) = EvLoadToken :: evs /\
    ~ In EvLoadToken evs.
Proof.
  apply reachable_identity_and_single_load.
  apply reach_call.
  apply (reach_init ∅ (Some "id") (Some "secret") None
           (TokenFile None true) (CacheDir [] true) sample_provider 1000).
  reflexivity.
Defined.

Lemma handle_callback_then_get_token_witness :
  exists w',
    handle_callback "code1" (fresh_world true) = (Ok true, w') /\
    forall now, (60 <= 4600 - now)%Z ->
      get_token (with_clock now w') = (Ok (PyStr "A1"), with_clock now w').
Proof.
  apply (handle_callback_then_get_token "code1" (fresh_world true)
           (token_record "A1" "R1" 4600) sample_provider
           (TokenFile (Some (token_record "A1" "R1" 4600)) true));
    reflexivity.
Defined.

Lemma get_token_twice_witness :
  exists w',
    get_token (stale_world true) = (Ok (PyStr "A2"), w') /\
    forall now, (60 <= 8200 - now)%Z ->
      get_token (with_clock now w') = (Ok (PyStr "A2"), with_clock now w').
Proof.
  apply (get_token_twice (stale_world true) held_record 1000 (PyStr "R0")
           (token_record "A2" "R2" 8200) sample_provider
           (TokenFile (Some (token_record "A2" "R2" 8200)) true));
    reflexivity.
Defined.
